(** * mcp-bear: dispatcher, command builder and data reader

    A shallow embedding of [src/mcp_bear/bear_url.py], [src/mcp_bear/database.py]
    and [src/mcp_bear/server.py].

    Python [str] values are represented by their UTF-8 encoding (a Rocq
    [string] is a sequence of bytes).  Python dictionaries keep insertion
    order, so a dictionary is an association list with unique keys.  The
    effects of the program (opening the store, running a query, closing the
    connection, starting the [open] subprocess, logging) are recorded as a
    trace of events by a small reader/writer/exception monad. *)

From Stdlib Require Import String Ascii List Bool ZArith NArith Lia.
From Stdlib Require Import DecimalString.
Import ListNotations.
Open Scope list_scope.
Open Scope string_scope.

(* ================================================================== *)
(** ** Strings *)

Module Str.

(** ASCII lower-casing: the only case folding SQLite's [LIKE] performs. *)
Definition to_lower (c : ascii) : ascii :=
  let n := N_of_ascii c in
  if ((65 <=? n) && (n <=? 90))%N then ascii_of_N (n + 32) else c.

Definition eq_nocase (c d : ascii) : bool :=
  Ascii.eqb (to_lower c) (to_lower d).

Fixpoint lower (s : string) : string :=
  match s with
  | EmptyString => EmptyString
  | String c s' => String (to_lower c) (lower s')
  end.

(** [s.startswith(x)] *)
Fixpoint starts_with (x s : string) : bool :=
  match x, s with
  | EmptyString, _ => true
  | String c x', String d s' => Ascii.eqb c d && starts_with x' s'
  | String _ _, EmptyString => false
  end.

(** [is_substr x s]: [x] occurs in [s] (Python's [x in s]). *)
Fixpoint is_substr (x s : string) : bool :=
  if starts_with x s then true
  else match s with
       | EmptyString => false
       | String _ s' => is_substr x s'
       end.

(** [x] occurs literally in [s]. *)
Definition contains (x s : string) : Prop :=
  exists l r, s = l ++ x ++ r.

(** [x] occurs in [s] up to ASCII case. *)
Definition contains_ci (x s : string) : Prop :=
  exists l m r, s = l ++ m ++ r /\ lower m = lower x.

(** [c] does not occur in [s]. *)
Fixpoint lacks (c : ascii) (s : string) : bool :=
  match s with
  | EmptyString => true
  | String d s' => negb (Ascii.eqb c d) && lacks c s'
  end.

Fixpoint join (sep : string) (l : list string) : string :=
  match l with
  | [] => ""
  | [x] => x
  | x :: l' => x ++ sep ++ join sep l'
  end.

(** Bytes [10xxxxxx] continue a UTF-8 code point. *)
Definition is_continuation (c : ascii) : bool :=
  let n := N_of_ascii c in ((128 <=? n) && (n <? 192))%N.

(** The characters (code points) of a UTF-8 encoded string, as Python
    iterates over a [str]. *)
Fixpoint code_points (s : string) : list string :=
  match s with
  | EmptyString => []
  | String c s' =>
      match s' with
      | String d _ =>
          if is_continuation d then
            match code_points s' with
            | h :: t => String c h :: t
            | [] => [String c ""]
            end
          else String c "" :: code_points s'
      | EmptyString => [String c ""]
      end
  end.

Definition of_nat (n : nat) : string := NilZero.string_of_uint (Nat.to_uint n).
Definition of_Z (z : Z) : string := NilZero.string_of_int (Z.to_int z).

End Str.

(* ================================================================== *)
(** ** Python values *)

(** The values that reach the program: JSON-shaped arguments, rows
    converted by [sqlite3], and the dictionaries the program builds.  A
    [float] is carried as the bit pattern of its IEEE-754 double; the
    program never computes with one. *)
#[warnings="-register-all"]
Inductive pyval : Type :=
| PNone
| PBool (b : bool)
| PInt (z : Z)
| PFloat (bits : Z)
| PStr (s : string)
| PList (l : list pyval)
| PDict (d : list (string * pyval)).

(** A raised exception: its class and what [str(e)] gives. *)
Record exn : Type := mkExn { exn_class : string; exn_str : string }.

Definition ValueError (msg : string) : exn := mkExn "ValueError" msg.
Definition TypeError (msg : string) : exn := mkExn "TypeError" msg.

Inductive outcome (A : Type) : Type :=
| Ok (a : A)
| Raise (e : exn).
Arguments Ok {A} a.
Arguments Raise {A} e.

Module Py.

(** Truth value testing ([if x:]). *)
Definition truthy (v : pyval) : bool :=
  match v with
  | PNone => false
  | PBool b => b
  | PInt z => negb (z =? 0)%Z
  | PFloat bits => negb ((bits =? 0)%Z || (bits =? 2 ^ 63)%Z)
  | PStr s => negb (String.eqb s "")
  | PList l => match l with [] => false | _ => true end
  | PDict d => match d with [] => false | _ => true end
  end.

Definition type_name (v : pyval) : string :=
  match v with
  | PNone => "NoneType"
  | PBool _ => "bool"
  | PInt _ => "int"
  | PFloat _ => "float"
  | PStr _ => "str"
  | PList _ => "list"
  | PDict _ => "dict"
  end.

Definition isinstance_dict (v : pyval) : bool :=
  match v with PDict _ => true | _ => false end.

(** [v == s] for a string literal [s]. *)
Definition eq_str (v : pyval) (s : string) : bool :=
  match v with PStr t => String.eqb t s | _ => false end.

(** [v in [s1, ..., sn]] for a list of string literals. *)
Definition in_strs (v : pyval) (l : list string) : bool :=
  existsb (eq_str v) l.

(** *** Dictionaries *)

Definition dict := list (string * pyval).

Fixpoint dict_lookup (k : string) (d : dict) : option pyval :=
  match d with
  | [] => None
  | (k', v) :: d' => if String.eqb k k' then Some v else dict_lookup k d'
  end.

(** [k in d] *)
Definition dict_mem (k : string) (d : dict) : bool :=
  match dict_lookup k d with Some _ => true | None => false end.

(** [d.get(k, default)] *)
Definition dict_get (k : string) (default : pyval) (d : dict) : pyval :=
  match dict_lookup k d with Some v => v | None => default end.

(** [d[k] = v]: overwrite in place, or append a new key at the end. *)
Fixpoint dict_set (k : string) (v : pyval) (d : dict) : dict :=
  match d with
  | [] => [(k, v)]
  | (k', v') :: d' =>
      if String.eqb k k' then (k, v) :: d' else (k', v') :: dict_set k v d'
  end.

Definition keys (d : dict) : list string := map fst d.

(** [arguments[k]], [arguments.get(k, default)] and [k in arguments] on
    a value already known to be a dict. *)
Definition mem (k : string) (v : pyval) : bool :=
  match v with PDict d => dict_mem k d | _ => false end.

Definition get (k : string) (default : pyval) (v : pyval) : pyval :=
  match v with PDict d => dict_get k default d | _ => default end.

(** *** [sep.join(iterable)] *)

Fixpoint strs_from (i : nat) (l : list pyval) : outcome (list string) :=
  match l with
  | [] => Ok []
  | PStr s :: l' =>
      match strs_from (S i) l' with
      | Ok r => Ok (s :: r)%list
      | Raise e => Raise e
      end
  | v :: _ =>
      Raise (TypeError ("sequence item " ++ Str.of_nat i
                        ++ ": expected str instance, " ++ type_name v ++ " found"))
  end.

Definition str_join (sep : string) (v : pyval) : outcome string :=
  match v with
  | PList l =>
      match strs_from 0 l with
      | Ok ss => Ok (Str.join sep ss)
      | Raise e => Raise e
      end
  | PStr s => Ok (Str.join sep (Str.code_points s))
  | PDict d => Ok (Str.join sep (keys d))
  | _ => Raise (TypeError "can only join an iterable")
  end.

End Py.

(* ================================================================== *)
(** ** [urllib.parse] *)

Module urllib.

Definition hex_digit (n : N) : ascii :=
  if (n <? 10)%N then ascii_of_N (48 + n) else ascii_of_N (55 + n).

(** Characters [quote] never escapes: letters, digits and [_.-~]. *)
Definition always_safe (c : ascii) : bool :=
  let n := N_of_ascii c in
  ((65 <=? n) && (n <=? 90) || (97 <=? n) && (n <=? 122)
   || (48 <=? n) && (n <=? 57)
   || (n =? 95) || (n =? 46) || (n =? 45) || (n =? 126))%N.

(** [quote_plus] on one byte: kept, a space turned into [+], or [%XX]. *)
Definition quote_byte (c : ascii) : string :=
  if always_safe c then String c ""
  else if Ascii.eqb c " " then "+"
  else let n := N_of_ascii c in
       String "%" (String (hex_digit (n / 16)) (String (hex_digit (n mod 16)) "")).

Fixpoint quote_plus (s : string) : string :=
  match s with
  | EmptyString => ""
  | String c s' => quote_byte c ++ quote_plus s'
  end.

Section Urlencode.
(** Python's built-in [str()] on a value that is not a [str]. *)
Variable py_str : pyval -> string.

(** [str(v)], as [urlencode] and f-strings apply it. *)
Definition to_str (v : pyval) : string :=
  match v with PStr s => s | _ => py_str v end.

(** One [k=v] field of [urlencode], both sides through [quote_plus]. *)
Definition field (kv : string * pyval) : string :=
  quote_plus (fst kv) ++ "=" ++ quote_plus (to_str (snd kv)).

(** [urlencode(params)] for a dict: its fields in insertion order,
    joined by [&]. *)
Definition urlencode (params : Py.dict) : string :=
  Str.join "&" (map field params).
End Urlencode.

(** *** Decoding, for the round-trip properties *)

Definition hex_value (c : ascii) : option N :=
  let n := N_of_ascii c in
  if ((48 <=? n) && (n <=? 57))%N then Some (n - 48)%N
  else if ((65 <=? n) && (n <=? 70))%N then Some (n - 55)%N
  else if ((97 <=? n) && (n <=? 102))%N then Some (n - 87)%N
  else None.

(** [unquote_plus]: [+] is a space, [%XX] a byte; a [%] not followed by
    two hex digits is kept. *)
Fixpoint unquote_from (skip : nat) (s : string) : string :=
  match s with
  | EmptyString => ""
  | String c s' =>
      match skip with
      | S k => unquote_from k s'
      | O =>
          if Ascii.eqb c "+" then String " " (unquote_from 0 s')
          else if Ascii.eqb c "%" then
            match s' with
            | String h (String l _) =>
                match hex_value h, hex_value l with
                | Some a, Some b =>
                    String (ascii_of_N (16 * a + b)) (unquote_from 2 s')
                | _, _ => String c (unquote_from 0 s')
                end
            | _ => String c (unquote_from 0 s')
            end
          else String c (unquote_from 0 s')
      end
  end.

Definition unquote_plus (s : string) : string := unquote_from 0 s.

End urllib.

(* ================================================================== *)
(** ** The store *)

(** A value bound to a [?] placeholder or stored in a column. *)
Inductive sqlval : Type :=
| SqlNull
| SqlInt (z : Z)
| SqlReal (bits : Z)
| SqlText (s : string).

(** Modelled from the spec: the schema of the notes relation, which the
    external application owns (section 6: a relation keyed by a unique
    identifier string, with title, body text, subtitle, creation and
    modification timestamps and an archived flag).  Every column is
    nullable; the flag is an integer column, the identifier and the texts
    are text columns, the timestamps are reals (carried as bit patterns). *)
Record note_row : Type := mkNote {
  ZCREATIONDATE : option Z;
  ZMODIFICATIONDATE : option Z;
  ZARCHIVED : option Z;
  ZSUBTITLE : option string;
  ZTEXT : option string;
  ZTITLE : option string;
  ZUNIQUEIDENTIFIER : option string
}.

(** Modelled from the spec: the tags relation, a title column
    enumerating the known tag names. *)
Record tag_row : Type := mkTag { TAG_ZTITLE : option string }.

(** How [subprocess.run(argv, check=True)] ends. *)
Inductive launch_outcome : Type :=
| ExitedZero
| ExitedNonZero (str_e : string)   (* CalledProcessError, with its str() *)
| SpawnFailed (e : exn).           (* any other exception *)

(** Everything outside the program that a call can observe. *)
Record World : Type := mkWorld {
  env_DB_ROUTE : option string;                 (* os.getenv("DB_ROUTE") *)
  home_dir : string;                            (* str(Path.home()) *)
  connect_error : string -> option exn;         (* sqlite3.connect(path) raising *)
  execute_error : string -> option exn;         (* cursor.execute(sql, ...) raising *)
  sqlite_real_text : Z -> string;               (* SQLite's text rendering of a real *)
  ZSFNOTE : list note_row;
  ZSFNOTETAG : list tag_row;
  launcher : list string -> launch_outcome
}.

(* ================================================================== *)
(** ** Effects *)

Inductive event : Type :=
| EvCall (f : string)                             (* an executor's body is entered *)
| EvConnect (path : string)                       (* a connection was opened *)
| EvExecute (sql : string) (params : list sqlval) (* cursor.execute *)
| EvClose                                         (* conn.close() *)
| EvSubprocess (argv : list string)               (* subprocess.run(argv) *)
| EvLog (msg : string).                           (* logger.error *)

Definition M (A : Type) : Type := World -> outcome A * list event.

Definition ret {A} (a : A) : M A := fun _ => (Ok a, []).

Definition bind {A B} (m : M A) (f : A -> M B) : M B :=
  fun w =>
    match m w with
    | (Ok a, t) => let (r, t') := f a w in (r, (t ++ t')%list)
    | (Raise e, t) => (Raise e, t)
    end.

Definition raise {A} (e : exn) : M A := fun _ => (Raise e, []).

Definition emit (ev : event) : M unit := fun _ => (Ok tt, [ev]).

Definition ask : M World := fun w => (Ok w, []).

Definition lift {A} (o : outcome A) : M A := fun _ => (o, []).

(** [try: m finally: c] *)
Definition try_finally {A} (m : M A) (c : M unit) : M A :=
  fun w =>
    let (r, t) := m w in
    match c w with
    | (Ok _, t') => (r, (t ++ t')%list)
    | (Raise e, t') => (Raise e, (t ++ t')%list)
    end.

(** [try: m except Exception as e: h e] *)
Definition try_except {A} (m : M A) (h : exn -> M A) : M A :=
  fun w =>
    match m w with
    | (Ok a, t) => (Ok a, t)
    | (Raise e, t) => let (r, t') := h e w in (r, (t ++ t')%list)
    end.

Declare Scope monad_scope.
Delimit Scope monad_scope with monad.
Notation "x <- m ;; k" := (bind m (fun x => k))
  (at level 61, m at next level, right associativity) : monad_scope.
Notation "m ;; k" := (bind m (fun _ => k))
  (at level 61, right associativity) : monad_scope.
Open Scope monad_scope.

Definition result {A} (m : M A) (w : World) : outcome A := fst (m w).
Definition trace {A} (m : M A) (w : World) : list event := snd (m w).

(* ================================================================== *)
(** ** bear_url.py *)

Module bear_url.
Section WithRuntime.
Variable py_str : pyval -> string.

Definition subprocess_run (argv : list string) : M unit :=
  emit (EvSubprocess argv) ;;
  w <- ask ;;
  match launcher w argv with
  | ExitedZero => ret tt
  | ExitedNonZero str_e => raise (mkExn "CalledProcessError" str_e)
  | SpawnFailed e => raise e
  end.

Definition _open_bear_url (url : string) : M pyval :=
  try_except
    (subprocess_run ["open"; url] ;;
     ret (PDict [("success", PBool true);
                 ("message", PStr "Command sent to Bear successfully")]))
    (fun e =>
       if String.eqb (exn_class e) "CalledProcessError" then
         ret (PDict [("success", PBool false); ("error", PStr (exn_str e))])
       else
         ret (PDict [("success", PBool false);
                     ("error", PStr ("Failed to open Bear URL: " ++ exn_str e))])).

(** The [params] dict of [create_note] once its five tests have run. *)
Definition create_note_params (title text tags pin open_note : pyval)
  : outcome Py.dict :=
  let params := [] in
  let params := if Py.truthy title then Py.dict_set "title" title params else params in
  let params := if Py.truthy text then Py.dict_set "text" text params else params in
  match (if Py.truthy tags
         then match Py.str_join "," tags with
              | Ok j => Ok (Py.dict_set "tags" (PStr j) params)
              | Raise e => Raise e
              end
         else Ok params) with
  | Raise e => Raise e
  | Ok params =>
      let params := if Py.truthy pin then Py.dict_set "pin" (PStr "yes") params else params in
      let params := if Py.truthy open_note
                    then Py.dict_set "open_note" (PStr "yes") params else params in
      Ok params
  end.

Definition create_note_url (params : Py.dict) : string :=
  let query_string := urllib.urlencode py_str params in
  "bear://x-callback-url/create?" ++ query_string.

Definition create_note (title text tags pin open_note : pyval) : M pyval :=
  emit (EvCall "create_note") ;;
  params <- lift (create_note_params title text tags pin open_note) ;;
  _open_bear_url (create_note_url params).

Definition add_text_params (note_id text mode open_note : pyval) : Py.dict :=
  let params := [("id", note_id); ("text", text); ("mode", mode)] in
  if Py.truthy open_note then Py.dict_set "open_note" (PStr "yes") params else params.

Definition add_text_url (params : Py.dict) : string :=
  let query_string := urllib.urlencode py_str params in
  "bear://x-callback-url/add-text?" ++ query_string.

Definition add_text (note_id text mode open_note : pyval) : M pyval :=
  emit (EvCall "add_text") ;;
  if negb (Py.in_strs mode ["append"; "prepend"; "replace"]) then
    ret (PDict [("success", PBool false);
                ("error", PStr ("Invalid mode: " ++ urllib.to_str py_str mode
                                ++ ". Use append, prepend, or replace"))])
  else
    _open_bear_url (add_text_url (add_text_params note_id text mode open_note)).

Definition add_tags_to_note (note_id tags : pyval) : M pyval :=
  emit (EvCall "add_tags_to_note") ;;
  joined <- lift (Py.str_join "," tags) ;;
  let params := [("id", note_id); ("tags", PStr joined)] in
  let query_string := urllib.urlencode py_str params in
  _open_bear_url ("bear://x-callback-url/add-tags?" ++ query_string).

(** The eight remaining commands build a dict of one or two keys. *)
Definition command (f segment : string) (params : Py.dict) : M pyval :=
  emit (EvCall f) ;;
  let query_string := urllib.urlencode py_str params in
  _open_bear_url ("bear://x-callback-url/" ++ segment ++ "?" ++ query_string).

Definition trash_note (note_id : pyval) : M pyval :=
  command "trash_note" "trash" [("id", note_id)].

Definition open_note (note_id : pyval) : M pyval :=
  command "open_note" "open-note" [("id", note_id)].

Definition search_in_bear (term : pyval) : M pyval :=
  command "search_in_bear" "search" [("term", term)].

Definition archive_note (note_id : pyval) : M pyval :=
  command "archive_note" "archive" [("id", note_id)].

Definition unarchive_note (note_id : pyval) : M pyval :=
  command "unarchive_note" "unarchive" [("id", note_id)].

Definition open_tag (tag : pyval) : M pyval :=
  command "open_tag" "open-tag" [("name", tag)].

Definition rename_tag (old_tag new_tag : pyval) : M pyval :=
  command "rename_tag" "rename-tag" [("name", old_tag); ("new_name", new_tag)].

End WithRuntime.
End bear_url.

(* ================================================================== *)
(** ** The SQLite operators the queries use *)

Module sqlite.

(** A text as SQLite's [LIKE] reads it: as a C string, the bytes before
    the first NUL. *)
Fixpoint c_str (s : string) : string :=
  match s with
  | EmptyString => EmptyString
  | String c s' => if Ascii.eqb c "000" then EmptyString else String c (c_str s')
  end.

(** SQLite's [patternCompare] for [LIKE] without an ESCAPE clause: [%]
    matches any run of characters, [_] any single one, every other
    character itself up to ASCII case.  Characters are bytes here, so [_]
    is exact on ASCII text. *)
Fixpoint patternCompare (p : string) : string -> bool :=
  match p with
  | EmptyString => fun s => match s with EmptyString => true | _ => false end
  | String c p' =>
      if Ascii.eqb c "%" then
        fix star (s : string) : bool :=
          patternCompare p' s || match s with
                                 | EmptyString => false
                                 | String _ s' => star s'
                                 end
      else if Ascii.eqb c "_" then
        fun s => match s with
                 | EmptyString => false
                 | String _ s' => patternCompare p' s'
                 end
      else
        fun s => match s with
                 | EmptyString => false
                 | String d s' => Str.eq_nocase c d && patternCompare p' s'
                 end
  end.

(** [s LIKE p]: the pattern and the text are both read as C strings, so
    each ends at its first NUL byte, and are then compared. *)
Definition like (p s : string) : bool :=
  patternCompare (c_str p) (c_str s).

(** A [WHERE] clause keeps a row when its condition is true; a
    comparison with NULL is not.  The conditions below use only [AND]
    and [OR], so reading NULL as false gives the same rows. *)
Definition col_like (col : option string) (pattern : string) : bool :=
  match col with Some s => like pattern s | None => false end.

Definition col_eq_int (col : option Z) (lit : Z) : bool :=
  match col with Some z => (z =? lit)%Z | None => false end.

(** [col = ?] on a text column: the bound value takes the column's TEXT
    affinity, then texts are compared byte for byte. *)
Definition col_eq_param (real_text : Z -> string) (col : option string)
                        (param : sqlval) : bool :=
  match col, param with
  | Some s, SqlText t => String.eqb s t
  | Some s, SqlInt z => String.eqb s (Str.of_Z z)
  | Some s, SqlReal bits => String.eqb s (real_text bits)
  | _, _ => false
  end.

(** What the [sqlite3] module binds for a Python value. *)
Definition bind_param (position : nat) (v : pyval) : outcome sqlval :=
  match v with
  | PNone => Ok SqlNull
  | PBool b => Ok (SqlInt (if b then 1 else 0))
  | PInt z =>
      if ((- 2 ^ 63 <=? z) && (z <? 2 ^ 63))%Z then Ok (SqlInt z)
      else Raise (mkExn "OverflowError"
                        "Python int too large to convert to SQLite INTEGER")
  | PFloat bits => Ok (SqlReal bits)
  | PStr s => Ok (SqlText s)
  | _ => Raise (mkExn "ProgrammingError"
                      ("Error binding parameter " ++ Str.of_nat position
                       ++ ": type '" ++ Py.type_name v ++ "' is not supported"))
  end.

(** Row values as [sqlite3.Row] hands them to Python. *)
Definition py_int (c : option Z) : pyval :=
  match c with Some z => PInt z | None => PNone end.
Definition py_real (c : option Z) : pyval :=
  match c with Some bits => PFloat bits | None => PNone end.
Definition py_text (c : option string) : pyval :=
  match c with Some s => PStr s | None => PNone end.

(** [sqlite3.connect(path)] with the two lines that follow it in every
    reader: setting [row_factory] and taking a cursor, which do not fail
    on a connection just opened. *)
Definition connect (path : string) : M unit :=
  w <- ask ;;
  match connect_error w path with
  | Some e => raise e
  | None => emit (EvConnect path)
  end.

Definition close : M unit := emit EvClose.

(** [cursor.execute(sql, params)] followed by reading the rows of
    [table] that satisfy [where_]. *)
Definition execute {R} (sql : string) (params : list sqlval)
                   (table : World -> list R) (where_ : World -> R -> bool)
  : M (list R) :=
  emit (EvExecute sql params) ;;
  w <- ask ;;
  match execute_error w sql with
  | Some e => raise e
  | None => ret (filter (where_ w) (table w))
  end.

End sqlite.

(* ================================================================== *)
(** ** database.py *)

Module database.
Section WithRuntime.
Variable py_str : pyval -> string.

Definition path_div (p seg : string) : string :=
  if String.eqb p "/" then p ++ seg else p ++ "/" ++ seg.

Definition get_bear_db_path : M string :=
  w <- ask ;;
  let db_route := match env_DB_ROUTE w with Some s => PStr s | None => PNone end in
  if Py.truthy db_route then ret (urllib.to_str py_str db_route)
  else
    let home := home_dir w in
    ret (fold_left path_div
           ["Library"; "Group Containers"; "9K33E3U3T4.net.shinyfrog.bear";
            "Application Data"; "database.sqlite"] home).

(** The five-key dict the list queries build from a row. *)
Definition note_summary (row : note_row) : pyval :=
  PDict [("ZCREATIONDATE", sqlite.py_real (ZCREATIONDATE row));
         ("ZSUBTITLE", sqlite.py_text (ZSUBTITLE row));
         ("ZTEXT", sqlite.py_text (ZTEXT row));
         ("ZTITLE", sqlite.py_text (ZTITLE row));
         ("ZUNIQUEIDENTIFIER", sqlite.py_text (ZUNIQUEIDENTIFIER row))].

(** The seven-key dict of [get_note_by_id]. *)
Definition note_detail (row : note_row) : pyval :=
  PDict [("ZCREATIONDATE", sqlite.py_real (ZCREATIONDATE row));
         ("ZMODIFICATIONDATE", sqlite.py_real (ZMODIFICATIONDATE row));
         ("ZARCHIVED", sqlite.py_int (ZARCHIVED row));
         ("ZSUBTITLE", sqlite.py_text (ZSUBTITLE row));
         ("ZTEXT", sqlite.py_text (ZTEXT row));
         ("ZTITLE", sqlite.py_text (ZTITLE row));
         ("ZUNIQUEIDENTIFIER", sqlite.py_text (ZUNIQUEIDENTIFIER row))].

Definition get_notes : M (list pyval) :=
  emit (EvCall "get_notes") ;;
  db_path <- get_bear_db_path ;;
  sqlite.connect db_path ;;
  try_finally
    (rows <- sqlite.execute "SELECT * FROM ZSFNOTE WHERE ZARCHIVED=0;" []
               ZSFNOTE (fun _ row => sqlite.col_eq_int (ZARCHIVED row) 0) ;;
     ret (map note_summary rows))
    sqlite.close.

(** The query texts are the source's, with their line breaks and
    indentation collapsed. *)
Definition get_notes_like (search_text : pyval) : M (list pyval) :=
  emit (EvCall "get_notes_like") ;;
  db_path <- get_bear_db_path ;;
  sqlite.connect db_path ;;
  try_finally
    (let query := "SELECT * FROM ZSFNOTE WHERE ZARCHIVED=0 AND (ZTEXT LIKE ? OR ZTITLE LIKE ?);" in
     let search_pattern := "%" ++ urllib.to_str py_str search_text ++ "%" in
     rows <- sqlite.execute query [SqlText search_pattern; SqlText search_pattern]
               ZSFNOTE
               (fun _ row =>
                  sqlite.col_eq_int (ZARCHIVED row) 0
                  && (sqlite.col_like (ZTEXT row) search_pattern
                      || sqlite.col_like (ZTITLE row) search_pattern)) ;;
     ret (map note_summary rows))
    sqlite.close.

Definition get_tags : M (list pyval) :=
  emit (EvCall "get_tags") ;;
  db_path <- get_bear_db_path ;;
  sqlite.connect db_path ;;
  try_finally
    (rows <- sqlite.execute "SELECT * FROM ZSFNOTETAG;" []
               ZSFNOTETAG (fun _ _ => true) ;;
     let tags := map (fun row => sqlite.py_text (TAG_ZTITLE row)) rows in
     ret tags)
    sqlite.close.

(** A [sqlite3.Row] with columns is true, so [if row:] tests whether a
    row was fetched. *)
Definition get_note_by_id (note_id : pyval) : M pyval :=
  emit (EvCall "get_note_by_id") ;;
  db_path <- get_bear_db_path ;;
  sqlite.connect db_path ;;
  try_finally
    (p <- lift (sqlite.bind_param 1 note_id) ;;
     rows <- sqlite.execute "SELECT * FROM ZSFNOTE WHERE ZUNIQUEIDENTIFIER=?;" [p]
               ZSFNOTE
               (fun w row =>
                  sqlite.col_eq_param (sqlite_real_text w)
                                      (ZUNIQUEIDENTIFIER row) p) ;;
     let row := hd_error rows in          (* cursor.fetchone() *)
     match row with
     | Some row => ret (note_detail row)
     | None => ret PNone
     end)
    sqlite.close.

Definition get_notes_by_tag (tag : pyval) : M (list pyval) :=
  emit (EvCall "get_notes_by_tag") ;;
  db_path <- get_bear_db_path ;;
  sqlite.connect db_path ;;
  try_finally
    (let search_pattern := "%#" ++ urllib.to_str py_str tag ++ "%" in
     rows <- sqlite.execute "SELECT * FROM ZSFNOTE WHERE ZARCHIVED=0 AND ZTEXT LIKE ?;"
               [SqlText search_pattern] ZSFNOTE
               (fun _ row =>
                  sqlite.col_eq_int (ZARCHIVED row) 0
                  && sqlite.col_like (ZTEXT row) search_pattern) ;;
     ret (map note_summary rows))
    sqlite.close.

Definition get_archived_notes : M (list pyval) :=
  emit (EvCall "get_archived_notes") ;;
  db_path <- get_bear_db_path ;;
  sqlite.connect db_path ;;
  try_finally
    (rows <- sqlite.execute "SELECT * FROM ZSFNOTE WHERE ZARCHIVED=1;" []
               ZSFNOTE (fun _ row => sqlite.col_eq_int (ZARCHIVED row) 1) ;;
     ret (map note_summary rows))
    sqlite.close.

End WithRuntime.
End database.

(* ================================================================== *)
(** ** server.py *)

Module server.

(** A [Tool] of [list_tools]: its name, its description and, from its
    input schema, the declared properties with their JSON types and the
    names listed under [required]. *)
Record Tool : Type := mkTool {
  name : string;
  description : string;
  properties : list (string * string);
  required : list string
}.

Definition note_id_property : string * string := ("note_id", "string").

Definition list_tools : list Tool :=
  [ mkTool "get_notes" "Get all notes from Bear" [] [];
    mkTool "get_tags"
           "Get all note tags. You can search notes by tags with get_notes_like" [] [];
    mkTool "get_notes_like" "Get notes that include a specific text string"
           [("like", "string")] ["like"];
    mkTool "create_note" "Create a new note in Bear"
           [("title", "string"); ("text", "string"); ("tags", "array");
            ("pin", "boolean"); ("open_note", "boolean")] [];
    mkTool "add_text" "Add text to an existing note"
           [note_id_property; ("text", "string"); ("mode", "string");
            ("open_note", "boolean")] ["note_id"; "text"];
    mkTool "add_tags" "Add tags to an existing note"
           [note_id_property; ("tags", "array")] ["note_id"; "tags"];
    mkTool "trash_note" "Move a note to trash" [note_id_property] ["note_id"];
    mkTool "open_note" "Open a specific note in Bear" [note_id_property] ["note_id"];
    mkTool "search_bear" "Open Bear and show search results for a term"
           [("term", "string")] ["term"];
    mkTool "get_note_by_id" "Get a specific note by its unique identifier"
           [note_id_property] ["note_id"];
    mkTool "get_notes_by_tag" "Get all notes with a specific tag"
           [("tag", "string")] ["tag"];
    mkTool "get_archived_notes" "Get all archived notes" [] [];
    mkTool "archive_note" "Archive a note" [note_id_property] ["note_id"];
    mkTool "unarchive_note" "Unarchive a note" [note_id_property] ["note_id"];
    mkTool "open_tag" "Open Bear and show all notes with a specific tag"
           [("tag", "string")] ["tag"];
    mkTool "rename_tag" "Rename a tag across all notes"
           [("old_tag", "string"); ("new_tag", "string")] ["old_tag"; "new_tag"] ].

(** [TextContent(type="text", text=...)] *)
Record TextContent : Type := mkText { type_ : string; text : string }.

Section WithRuntime.
Variable py_str : pyval -> string.

Definition reply (s : string) : M (list TextContent) :=
  ret [mkText "text" s].

(** [not isinstance(arguments, dict) or k not in arguments] *)
Definition missing (k : string) (arguments : pyval) : bool :=
  negb (Py.isinstance_dict arguments) || negb (Py.mem k arguments).

(** [arguments[k]], reached only once [k in arguments] holds. *)
Definition item (k : string) (arguments : pyval) : pyval :=
  Py.get k PNone arguments.

Definition call_tool (name : string) (arguments : pyval) : M (list TextContent) :=
  try_except
    (if String.eqb name "get_notes" then
       notes <- database.get_notes py_str ;;
       reply (py_str (PDict [("notes", PList notes)]))

     else if String.eqb name "get_tags" then
       tags <- database.get_tags py_str ;;
       reply (py_str (PDict [("tags", PList tags)]))

     else if String.eqb name "get_notes_like" then
       if missing "like" arguments then
         raise (ValueError "Missing required argument: like")
       else
         let search_text := item "like" arguments in
         notes <- database.get_notes_like py_str search_text ;;
         reply (py_str (PDict [("notes", PList notes)]))

     else if String.eqb name "create_note" then
       if negb (Py.isinstance_dict arguments) then
         raise (ValueError "Invalid arguments")
       else
         result <- bear_url.create_note py_str
                     (Py.get "title" PNone arguments)
                     (Py.get "text" PNone arguments)
                     (Py.get "tags" PNone arguments)
                     (Py.get "pin" (PBool false) arguments)
                     (Py.get "open_note" (PBool false) arguments) ;;
         reply (py_str result)

     else if String.eqb name "add_text" then
       if missing "note_id" arguments || negb (Py.mem "text" arguments) then
         raise (ValueError "Missing required arguments: note_id and text")
       else
         result <- bear_url.add_text py_str
                     (item "note_id" arguments)
                     (item "text" arguments)
                     (Py.get "mode" (PStr "append") arguments)
                     (Py.get "open_note" (PBool false) arguments) ;;
         reply (py_str result)

     else if String.eqb name "add_tags" then
       if missing "note_id" arguments || negb (Py.mem "tags" arguments) then
         raise (ValueError "Missing required arguments: note_id and tags")
       else
         result <- bear_url.add_tags_to_note py_str
                     (item "note_id" arguments) (item "tags" arguments) ;;
         reply (py_str result)

     else if String.eqb name "trash_note" then
       if missing "note_id" arguments then
         raise (ValueError "Missing required argument: note_id")
       else
         result <- bear_url.trash_note py_str (item "note_id" arguments) ;;
         reply (py_str result)

     else if String.eqb name "open_note" then
       if missing "note_id" arguments then
         raise (ValueError "Missing required argument: note_id")
       else
         result <- bear_url.open_note py_str (item "note_id" arguments) ;;
         reply (py_str result)

     else if String.eqb name "search_bear" then
       if missing "term" arguments then
         raise (ValueError "Missing required argument: term")
       else
         result <- bear_url.search_in_bear py_str (item "term" arguments) ;;
         reply (py_str result)

     else if String.eqb name "get_note_by_id" then
       if missing "note_id" arguments then
         raise (ValueError "Missing required argument: note_id")
       else
         note <- database.get_note_by_id py_str (item "note_id" arguments) ;;
         if Py.truthy note then
           reply (py_str (PDict [("note", note)]))
         else
           reply (py_str (PDict [("error", PStr "Note not found")]))

     else if String.eqb name "get_notes_by_tag" then
       if missing "tag" arguments then
         raise (ValueError "Missing required argument: tag")
       else
         notes <- database.get_notes_by_tag py_str (item "tag" arguments) ;;
         reply (py_str (PDict [("notes", PList notes);
                               ("count", PInt (Z.of_nat (length notes)))]))

     else if String.eqb name "get_archived_notes" then
       notes <- database.get_archived_notes py_str ;;
       reply (py_str (PDict [("notes", PList notes);
                             ("count", PInt (Z.of_nat (length notes)))]))

     else if String.eqb name "archive_note" then
       if missing "note_id" arguments then
         raise (ValueError "Missing required argument: note_id")
       else
         result <- bear_url.archive_note py_str (item "note_id" arguments) ;;
         reply (py_str result)

     else if String.eqb name "unarchive_note" then
       if missing "note_id" arguments then
         raise (ValueError "Missing required argument: note_id")
       else
         result <- bear_url.unarchive_note py_str (item "note_id" arguments) ;;
         reply (py_str result)

     else if String.eqb name "open_tag" then
       if missing "tag" arguments then
         raise (ValueError "Missing required argument: tag")
       else
         result <- bear_url.open_tag py_str (item "tag" arguments) ;;
         reply (py_str result)

     else if String.eqb name "rename_tag" then
       if missing "old_tag" arguments || negb (Py.mem "new_tag" arguments) then
         raise (ValueError "Missing required arguments: old_tag and new_tag")
       else
         result <- bear_url.rename_tag py_str
                     (item "old_tag" arguments) (item "new_tag" arguments) ;;
         reply (py_str result)

     else
       raise (ValueError ("Unknown tool: " ++ name)))
    (fun e =>
       emit (EvLog ("Error executing tool " ++ name ++ ": " ++ exn_str e)) ;;
       reply ("Error: " ++ exn_str e)).

End WithRuntime.
End server.

(* ================================================================== *)
(** ** What the specification speaks of *)

Module Spec.

(** *** Decoding a command URI *)

(** [split_at c s]: the text before the first [c], and the text after
    it when there is one. *)
Fixpoint split_at (c : ascii) (s : string) : string * option string :=
  match s with
  | EmptyString => ("", None)
  | String d s' =>
      if Ascii.eqb d c then ("", Some s')
      else let (a, b) := split_at c s' in (String d a, b)
  end.

(** [s.split(c)] *)
Fixpoint split (c : ascii) (s : string) : list string :=
  match s with
  | EmptyString => [""]
  | String d s' =>
      if Ascii.eqb d c then "" :: split c s'
      else match split c s' with
           | h :: t => String d h :: t
           | [] => [String d ""]
           end
  end.

(** The query part of a URI: what follows the first [?]. *)
Definition url_query (url : string) : string :=
  match snd (split_at "?" url) with Some q => q | None => "" end.

Definition parse_field (field : string) : list (string * string) :=
  if String.eqb field "" then []
  else let (k, v) := split_at "=" field in
       [(urllib.unquote_plus k,
         urllib.unquote_plus (match v with Some v => v | None => "" end))].

(** The decoded parameters of a query string, in order, blank values
    kept: fields between [&], each cut at its first [=], both sides
    percent-decoded. *)
Definition parse_qsl (q : string) : list (string * string) :=
  flat_map parse_field (split "&" q).

Definition decoded_params (url : string) : list (string * string) :=
  parse_qsl (url_query url).

(** The URIs a trace hands to the launcher. *)
Fixpoint opened_urls (t : list event) : list string :=
  match t with
  | [] => []
  | EvSubprocess ["open"; url] :: t' => url :: opened_urls t'
  | _ :: t' => opened_urls t'
  end.

(** *** The registry *)

Definition tool_names : list string := map server.name server.list_tools.

(** *** The notes a search is meant to return *)

Definition not_archived (row : note_row) : bool :=
  sqlite.col_eq_int (ZARCHIVED row) 0.


(** [x] occurs in a nullable text column, up to ASCII case. *)
Definition col_contains_ci (x : string) (col : option string) : bool :=
  match col with
  | Some s => Str.is_substr (Str.lower x) (Str.lower s)
  | None => false
  end.

Definition notes_containing (x : string) (notes : list note_row) : list note_row :=
  filter (fun row => not_archived row
                     && (col_contains_ci x (ZTITLE row) || col_contains_ci x (ZTEXT row)))
         notes.


(** [x] occurs, up to ASCII case, in a nullable text column as [LIKE]
    reads it: in the bytes before its first NUL, which is the whole text
    when it holds none. *)
Definition col_reads_ci (x : string) (col : option string) : bool :=
  match col with
  | Some s => Str.is_substr (Str.lower x) (Str.lower (sqlite.c_str s))
  | None => false
  end.


(** No NUL byte occurs in [x]. *)
Definition nul_free (x : string) : bool := Str.lacks "000" x.

(** No title and no body of the store holds a NUL byte. *)
Definition texts_nul_free (notes : list note_row) : Prop :=
  forall row, In row notes ->
    (forall s, ZTEXT row = Some s -> nul_free s = true)
    /\ (forall s, ZTITLE row = Some s -> nul_free s = true).

(** No LIKE wildcard occurs in [x]. *)
Definition plain (x : string) : bool := Str.lacks "%" x && Str.lacks "_" x.

(** *** The Data Reader's calls *)

Inductive reader_call : Type :=
| GetNotes
| GetNotesLike (search_text : pyval)
| GetTags
| GetNoteById (note_id : pyval)
| GetNotesByTag (tag : pyval)
| GetArchivedNotes.

Definition reader_name (c : reader_call) : string :=
  match c with
  | GetNotes => "get_notes"
  | GetNotesLike _ => "get_notes_like"
  | GetTags => "get_tags"
  | GetNoteById _ => "get_note_by_id"
  | GetNotesByTag _ => "get_notes_by_tag"
  | GetArchivedNotes => "get_archived_notes"
  end.

Definition reader_trace (py_str : pyval -> string) (c : reader_call) (w : World)
  : list event :=
  match c with
  | GetNotes => trace (database.get_notes py_str) w
  | GetNotesLike x => trace (database.get_notes_like py_str x) w
  | GetTags => trace (database.get_tags py_str) w
  | GetNoteById i => trace (database.get_note_by_id py_str i) w
  | GetNotesByTag t => trace (database.get_notes_by_tag py_str t) w
  | GetArchivedNotes => trace (database.get_archived_notes py_str) w
  end.

(** The call raised. *)
Definition reader_raises (py_str : pyval -> string) (c : reader_call) (w : World)
  : bool :=
  let raised {A} (o : outcome A) := match o with Raise _ => true | Ok _ => false end in
  match c with
  | GetNotes => raised (result (database.get_notes py_str) w)
  | GetNotesLike x => raised (result (database.get_notes_like py_str x) w)
  | GetTags => raised (result (database.get_tags py_str) w)
  | GetNoteById i => raised (result (database.get_note_by_id py_str i) w)
  | GetNotesByTag t => raised (result (database.get_notes_by_tag py_str t) w)
  | GetArchivedNotes => raised (result (database.get_archived_notes py_str) w)
  end.

(** The store path a call in world [w] resolves. *)
Definition store_path (py_str : pyval -> string) (w : World) : string :=
  match result (database.get_bear_db_path py_str) w with
  | Ok p => p
  | Raise _ => ""
  end.

(** A trace keeps to one scoped connection: nothing touches the store
    before it is opened or after it is closed, it is closed at the end,
    and nothing else (no subprocess, no log) happens. *)
Fixpoint scoped (opened : bool) (t : list event) : bool :=
  match t with
  | [] => negb opened
  | EvCall _ :: t' => scoped opened t'
  | EvConnect _ :: t' => negb opened && scoped true t'
  | EvExecute _ _ :: t' => opened && scoped opened t'
  | EvClose :: t' => opened && scoped false t'
  | EvSubprocess _ :: _ => false
  | EvLog _ :: _ => false
  end.

End Spec.

(* ================================================================== *)
(** ** Small worlds to run the program in *)

Module Demo.

(** A runtime whose [str()] of a non-string is never looked at. *)
Definition no_str (v : pyval) : string := "".

Definition note (archived : Z) (title text ident : string) : note_row :=
  mkNote None None (Some archived) None (Some text) (Some title) (Some ident).

(** A world where the store opens, queries run and [open] exits with 0. *)
Definition world_of (notes : list note_row) : World :=
  mkWorld None "/Users/u" (fun _ => None) (fun _ => None) (fun _ => "")
          notes [] (fun _ => ExitedZero).

(** The same, but every statement raises. *)
Definition failing_queries (notes : list note_row) : World :=
  mkWorld None "/Users/u" (fun _ => None)
          (fun _ => Some (mkExn "OperationalError" "no such table: ZSFNOTE"))
          (fun _ => "") notes [] (fun _ => ExitedZero).

Definition shopping : note_row := note 0 "a" "" "n1".
Definition archived_draft : note_row := note 1 "b" "x_y" "n2".
Definition shouted : note_row := note 0 "loud" "#A" "n3".

End Demo.

(* ================================================================== *)
(** ** Reading a trace, and what a call is expected to build *)

Module Routing.

(** The executors a trace enters, in order. *)
Fixpoint calls (t : list event) : list string :=
  match t with
  | [] => []
  | EvCall f :: t' => f :: calls t'
  | _ :: t' => calls t'
  end.

(** The log lines of a trace. *)
Fixpoint logged (t : list event) : list string :=
  match t with
  | [] => []
  | EvLog msg :: t' => msg :: logged t'
  | _ :: t' => logged t'
  end.

(** The store events of a trace. *)
Fixpoint store_events (t : list event) : list event :=
  match t with
  | [] => []
  | EvConnect p :: t' => EvConnect p :: store_events t'
  | EvExecute q ps :: t' => EvExecute q ps :: store_events t'
  | EvClose :: t' => EvClose :: store_events t'
  | _ :: t' => store_events t'
  end.

(** Every subprocess a trace starts. *)
Fixpoint spawned (t : list event) : list (list string) :=
  match t with
  | [] => []
  | EvSubprocess argv :: t' => argv :: spawned t'
  | _ :: t' => spawned t'
  end.

(** The function of [bear_url.py] or [database.py] that [call_tool]
    calls for a tool name. *)
Definition executor_of (name : string) : string :=
  if String.eqb name "add_tags" then "add_tags_to_note"
  else if String.eqb name "search_bear" then "search_in_bear"
  else name.

(** The tool declares at least one property. *)
Definition takes_arguments (tool : server.Tool) : bool :=
  match server.properties tool with [] => false | _ => true end.

(** The tools served by [database.py]. *)
Definition read_tools : list string :=
  ["get_notes"; "get_tags"; "get_notes_like"; "get_note_by_id";
   "get_notes_by_tag"; "get_archived_notes"].

(** What one executor run may leave behind: the call alone, the call and
    one launch (which then returns), or the call and one scoped use of
    the store. *)
Inductive exec_run {A : Type} (f : string) : outcome A * list event -> Prop :=
| run_alone (o : outcome A) : exec_run f (o, [EvCall f])
| run_launch (a : A) (url : string) :
    exec_run f (Ok a, [EvCall f; EvSubprocess ["open"; url]])
| run_query (o : outcome A) (path sql : string) (params : list sqlval) :
    exec_run f (o, [EvCall f; EvConnect path; EvExecute sql params; EvClose])
| run_unbound (o : outcome A) (path : string) :
    exec_run f (o, [EvCall f; EvConnect path; EvClose]).

(** A continuation that only builds the reply. *)
Definition replies {A : Type} (k : A -> M (list server.TextContent)) : Prop :=
  forall a w, exists s, k a w = (Ok [server.mkText "text" s], []).

(** The end of a call's trace: nothing, or the one log line of a failure. *)
Definition tail_ok (t : list event) : Prop :=
  t = [] \/ exists msg, t = [EvLog msg].

(** The traces one [call_tool] may leave: the log line of a rejected
    request; or one executor entered, followed by nothing, or by one
    launch, or by one scoped use of the store, and then by the log line
    when the executor raised. *)
Inductive call_trace : list event -> Prop :=
| ct_rejected (msg : string) : call_trace [EvLog msg]
| ct_alone (f : string) (tail : list event) :
    tail_ok tail -> call_trace (EvCall f :: tail)
| ct_launch (f url : string) :
    call_trace [EvCall f; EvSubprocess ["open"; url]]
| ct_query (f path sql : string) (params : list sqlval) (tail : list event) :
    tail_ok tail ->
    call_trace (EvCall f :: EvConnect path :: EvExecute sql params :: EvClose :: tail)
| ct_unbound (f path : string) (tail : list event) :
    tail_ok tail ->
    call_trace (EvCall f :: EvConnect path :: EvClose :: tail).

(** A trace hands the launcher exactly one URI, which starts with
    [prefix] and decodes to the parameters [ps]. *)
Definition launches (t : list event) (prefix : string) (ps : list (string * string))
  : Prop :=
  exists url,
    Spec.opened_urls t = [url]
    /\ Str.starts_with prefix url = true
    /\ Spec.decoded_params url = ps.

(** The parameters [create_note] is expected to send for arguments of
    their declared types. *)
Definition create_note_expected (title text : string) (tags : list string)
                                (pin open_note : bool) : list (string * string) :=
  ((if String.eqb title "" then [] else [("title", title)])
   ++ (if String.eqb text "" then [] else [("text", text)])
   ++ (match tags with [] => [] | _ => [("tags", Str.join "," tags)] end)
   ++ (if pin then [("pin", "yes")] else [])
   ++ (if open_note then [("open_note", "yes")] else []))%list.

(** A row is listed by neither [get_notes] nor [get_archived_notes]. *)
Definition unlisted (row : note_row) : bool :=
  negb (sqlite.col_eq_int (ZARCHIVED row) 0) && negb (sqlite.col_eq_int (ZARCHIVED row) 1).

(** A row has a title or a body. *)
Definition has_text (row : note_row) : bool :=
  match ZTEXT row, ZTITLE row with None, None => false | _, _ => true end.

(** The store path under a home directory. *)
Definition default_store_path (home : string) : string :=
  (if String.eqb home "/" then "" else home)
  ++ "/Library/Group Containers/9K33E3U3T4.net.shinyfrog.bear/Application Data/database.sqlite".

(** The store path a world resolves: a non-empty [DB_ROUTE], else the
    default under the home directory. *)
Definition resolved_path (w : World) : string :=
  match env_DB_ROUTE w with
  | Some route => if String.eqb route "" then default_store_path (home_dir w) else route
  | None => default_store_path (home_dir w)
  end.

(** Worlds for the examples below. *)
Definition store_down (e : exn) : World :=
  mkWorld None "/Users/u" (fun _ => Some e) (fun _ => None) (fun _ => "")
          [] [] (fun _ => ExitedZero).

Definition launcher_down (str_e : string) : World :=
  mkWorld None "/Users/u" (fun _ => None) (fun _ => None) (fun _ => "")
          [] [] (fun _ => ExitedNonZero str_e).

Definition with_db_route (route : string) (notes : list note_row) : World :=
  mkWorld (Some route) "/Users/u" (fun _ => None) (fun _ => None) (fun _ => "")
          notes [] (fun _ => ExitedZero).

End Routing.

(* ================================================================== *)
(** ** Facts about strings *)

Section StringFacts.

Lemma append_nil_r (s : string) : s ++ "" = s.
Proof. induction s as [|c s IH]; simpl; congruence. Qed.

Lemma append_assoc (a b c : string) : (a ++ b) ++ c = a ++ b ++ c.
Proof. induction a as [|x a IH]; simpl; congruence. Qed.

Lemma starts_with_iff (x s : string) :
  Str.starts_with x s = true <-> exists r, s = x ++ r.
Proof.
  revert s; induction x as [|c x IH]; intros s; simpl.
  - split; [intros _; now exists s | reflexivity].
  - destruct s as [|d s].
    + split; [discriminate | intros [r H]; discriminate].
    + rewrite andb_true_iff, Ascii.eqb_eq, IH.
      split; [intros [-> [r ->]]; now exists r | intros [r H]].
      injection H as -> ->. split; [reflexivity | now exists r].
Qed.

Lemma is_substr_iff (x s : string) :
  Str.is_substr x s = true <-> Str.contains x s.
Proof.
  unfold Str.contains. induction s as [|c s IH].
  - simpl. destruct (Str.starts_with x "") eqn:Hp.
    + apply starts_with_iff in Hp as [r Hr].
      split; [intros _; now exists "", r | reflexivity].
    + split; [discriminate|]. intros (l & r & H).
      destruct l; [|discriminate]. simpl in H.
      assert (Str.starts_with x "" = true) by (apply starts_with_iff; now exists r).
      congruence.
  - cbn [Str.is_substr]. destruct (Str.starts_with x (String c s)) eqn:Hp.
    + apply starts_with_iff in Hp as [r Hr].
      split; [intros _; now exists "", r | reflexivity].
    + rewrite IH. split.
      * intros (l & r & H). exists (String c l), r. simpl. congruence.
      * intros (l & r & H). destruct l as [|d l].
        -- simpl in H.
           assert (Str.starts_with x (String c s) = true)
             by (apply starts_with_iff; now exists r).
           congruence.
        -- simpl in H. exists l, r. congruence.
Qed.

Lemma is_substr_false (x s : string) :
  Str.is_substr x s = false -> ~ Str.contains x s.
Proof. intros H C. apply is_substr_iff in C. congruence. Qed.

Lemma lower_app (a b : string) :
  Str.lower (a ++ b) = Str.lower a ++ Str.lower b.
Proof. induction a as [|c a IH]; simpl; congruence. Qed.

(** A split of [lower s] comes from a split of [s]. *)
Lemma lower_app_inv (s a b : string) :
  Str.lower s = a ++ b ->
  exists s1 s2, s = s1 ++ s2 /\ Str.lower s1 = a /\ Str.lower s2 = b.
Proof.
  revert s; induction a as [|c a IH]; intros s H; simpl in H.
  - now exists "", s.
  - destruct s as [|d s]; [discriminate|]. simpl in H.
    injection H as Hc Hs. destruct (IH _ Hs) as (s1 & s2 & -> & <- & <-).
    exists (String d s1), s2. simpl. now rewrite Hc.
Qed.

(** Containment up to case is containment of the lower-cased texts. *)
Lemma is_substr_lower_iff (x s : string) :
  Str.is_substr (Str.lower x) (Str.lower s) = true <-> Str.contains_ci x s.
Proof.
  rewrite is_substr_iff. unfold Str.contains, Str.contains_ci. split.
  - intros (a & b & H).
    apply lower_app_inv in H as (l & t & -> & _ & H).
    apply lower_app_inv in H as (m & r & -> & Hm & _).
    now exists l, m, r.
  - intros (l & m & r & -> & Hm).
    exists (Str.lower l), (Str.lower r). now rewrite !lower_app, Hm.
Qed.

Lemma lacks_app (c : ascii) (a b : string) :
  Str.lacks c (a ++ b) = Str.lacks c a && Str.lacks c b.
Proof.
  induction a as [|d a IH]; simpl; [reflexivity|].
  now rewrite IH, andb_assoc.
Qed.

Lemma contains_join (sep x : string) (l : list string) :
  In x l -> Str.contains x (Str.join sep l).
Proof.
  induction l as [|y l IH]; [contradiction|]. intros [->|Hin].
  - destruct l as [|z l].
    + exists "", "". simpl. now rewrite append_nil_r.
    + exists "", (sep ++ Str.join sep (z :: l)). reflexivity.
  - destruct l as [|z l]; [contradiction|].
    destruct (IH Hin) as (a & b & Hab).
    exists (y ++ sep ++ a), b.
    change (Str.join sep (y :: z :: l)) with (y ++ sep ++ Str.join sep (z :: l)).
    now rewrite Hab, !append_assoc.
Qed.

End StringFacts.

(* ================================================================== *)
(** ** Facts about [patternCompare] and [LIKE] *)

Section LikeFacts.

Lemma like_percent_unfold (p s : string) :
  sqlite.patternCompare (String "%" p) s
  = sqlite.patternCompare p s
    || match s with
       | EmptyString => false
       | String _ s' => sqlite.patternCompare (String "%" p) s'
       end.
Proof. destruct s; reflexivity. Qed.

Lemma like_char_unfold (c : ascii) (p s : string) :
  Ascii.eqb c "%" = false -> Ascii.eqb c "_" = false ->
  sqlite.patternCompare (String c p) s
  = match s with
    | EmptyString => false
    | String d s' => Str.eq_nocase c d && sqlite.patternCompare p s'
    end.
Proof. intros H1 H2. simpl. now rewrite H1, H2. Qed.

(** [%] followed by [p] matches [s] when [p] matches a suffix of [s]. *)
Lemma like_percent (p s : string) :
  sqlite.patternCompare (String "%" p) s = true
  <-> exists l r, s = l ++ r /\ sqlite.patternCompare p r = true.
Proof.
  induction s as [|c s IH]; rewrite like_percent_unfold, orb_true_iff.
  - split.
    + intros [H|H]; [now exists "", "" | discriminate].
    + intros (l & r & H & Hr). destruct l; [|discriminate].
      simpl in H. subst r. now left.
  - rewrite IH. split.
    + intros [H|(l & r & -> & Hr)].
      * now exists "", (String c s).
      * now exists (String c l), r.
    + intros (l & r & H & Hr). destruct l as [|d l]; simpl in H.
      * subst r. now left.
      * injection H as -> ->. right. now exists l, r.
Qed.

Lemma like_any (s : string) : sqlite.patternCompare "%" s = true.
Proof.
  apply like_percent. exists s, "". now rewrite append_nil_r.
Qed.

(** A pattern that starts with wildcard-free text [x] matches [s] when
    [s] starts with [x] up to case and the rest of the pattern matches
    the rest of [s]. *)
Lemma like_plain (x p s : string) :
  Spec.plain x = true ->
  sqlite.patternCompare (x ++ p) s = true
  <-> exists m r, s = m ++ r /\ Str.lower m = Str.lower x /\ sqlite.patternCompare p r = true.
Proof.
  unfold Spec.plain. revert s.
  induction x as [|c x IH]; intros s Hx.
  - simpl. split.
    + intros H. now exists "", s.
    + intros (m & r & -> & Hm & Hr). destruct m; [assumption | discriminate].
  - cbn [Str.lacks] in Hx. apply andb_true_iff in Hx as [Hp Hu].
    apply andb_true_iff in Hp as [Hcp Hp].
    apply andb_true_iff in Hu as [Hcu Hu].
    apply negb_true_iff in Hcp, Hcu.
    rewrite Ascii.eqb_sym in Hcp. rewrite Ascii.eqb_sym in Hcu.
    change (String c x ++ p) with (String c (x ++ p)).
    rewrite (like_char_unfold _ _ _ Hcp Hcu).
    destruct s as [|d s].
    + split; [discriminate|].
      intros (m & r & H & Hm & _). destruct m; discriminate.
    + rewrite andb_true_iff. unfold Str.eq_nocase. rewrite Ascii.eqb_eq.
      rewrite IH by (now rewrite Hp, Hu). split.
      * intros (Hcd & m & r & -> & Hm & Hr).
        exists (String d m), r. simpl. now rewrite Hm, Hcd.
      * intros (m & r & H & Hm & Hr).
        destruct m as [|e m]; [discriminate|]. simpl in H, Hm.
        injection H as -> ->. injection Hm as Hc Hm.
        split; [congruence | now exists m, r].
Qed.

(** With no wildcard in [x], the pattern [%x%] matches [s] exactly when
    [s] contains [x] up to ASCII case. *)
Lemma like_plain_contains (x s : string) :
  Spec.plain x = true ->
  sqlite.patternCompare ("%" ++ x ++ "%") s = Str.is_substr (Str.lower x) (Str.lower s).
Proof.
  intros Hx. apply eq_true_iff_eq.
  change ("%" ++ x ++ "%") with (String "%" (x ++ "%")).
  rewrite like_percent, is_substr_iff. unfold Str.contains. split.
  - intros (l & r & -> & H). apply (like_plain _ _ _ Hx) in H as (m & r' & -> & Hm & _).
    exists (Str.lower l), (Str.lower r'). now rewrite !lower_app, Hm.
  - intros (a & b & H).
    apply lower_app_inv in H as (l & t & -> & _ & H).
    apply lower_app_inv in H as (m & r & -> & Hm & _).
    exists l, (m ++ r). split; [reflexivity|].
    apply (like_plain _ _ _ Hx). exists m, r. repeat split; auto using like_any.
Qed.


Lemma c_str_nul_free (s : string) : Spec.nul_free s = true -> sqlite.c_str s = s.
Proof.
  unfold Spec.nul_free. induction s as [|c s IH]; cbn [Str.lacks sqlite.c_str];
    [reflexivity|].
  intros H. apply andb_true_iff in H as [Hc Hs]. apply negb_true_iff in Hc.
  rewrite Ascii.eqb_sym in Hc. now rewrite Hc, (IH Hs).
Qed.

Lemma nul_free_app (a b : string) :
  Spec.nul_free (a ++ b) = Spec.nul_free a && Spec.nul_free b.
Proof. apply lacks_app. Qed.

(** With no wildcard and no NUL in [x], [s LIKE '%x%'] is containment of
    [x], up to ASCII case, in [s] read up to its first NUL. *)
Lemma like_plain_reads (x s : string) :
  Spec.plain x = true -> Spec.nul_free x = true ->
  sqlite.like ("%" ++ x ++ "%") s
  = Str.is_substr (Str.lower x) (Str.lower (sqlite.c_str s)).
Proof.
  intros Hx Hn. unfold sqlite.like.
  rewrite (c_str_nul_free ("%" ++ x ++ "%")).
  - now apply like_plain_contains.
  - rewrite !nul_free_app, Hn. reflexivity.
Qed.

Lemma col_like_plain (x : string) (col : option string) :
  Spec.plain x = true -> Spec.nul_free x = true ->
  sqlite.col_like col ("%" ++ x ++ "%") = Spec.col_reads_ci x col.
Proof.
  intros Hx Hn. destruct col; simpl; [now apply like_plain_reads | reflexivity].
Qed.

Lemma col_reads_nul_free (x : string) (col : option string) :
  (forall s, col = Some s -> Spec.nul_free s = true) ->
  Spec.col_reads_ci x col = Spec.col_contains_ci x col.
Proof.
  intros H. destruct col as [s|]; [|reflexivity]. cbn.
  now rewrite (c_str_nul_free s) by now apply H.
Qed.

End LikeFacts.

(* ================================================================== *)
(** ** Encoding a query string and decoding it again *)

Section UrlFacts.
Variable py_str : pyval -> string.

Ltac each_byte c := destruct c as [[] [] [] [] [] [] [] []].

Lemma quote_byte_lacks (c : ascii) :
  Str.lacks "&" (urllib.quote_byte c) = true
  /\ Str.lacks "=" (urllib.quote_byte c) = true.
Proof. each_byte c; split; reflexivity. Qed.

Lemma quote_plus_lacks (s : string) :
  Str.lacks "&" (urllib.quote_plus s) = true
  /\ Str.lacks "=" (urllib.quote_plus s) = true.
Proof.
  induction s as [|c s [IH1 IH2]]; simpl; [now split|].
  rewrite !lacks_app, IH1, IH2.
  destruct (quote_byte_lacks c) as [-> ->]. now split.
Qed.

Lemma unquote_quote_byte (c : ascii) (rest : string) :
  urllib.unquote_from 0 (urllib.quote_byte c ++ rest)
  = String c (urllib.unquote_from 0 rest).
Proof. each_byte c; reflexivity. Qed.

Lemma unquote_quote (s : string) :
  urllib.unquote_plus (urllib.quote_plus s) = s.
Proof.
  unfold urllib.unquote_plus. induction s as [|c s IH]; [reflexivity|].
  cbn [urllib.quote_plus]. now rewrite unquote_quote_byte, IH.
Qed.

Lemma split_at_first (c : ascii) (a b : string) :
  Str.lacks c a = true ->
  Spec.split_at c (a ++ String c b) = (a, Some b).
Proof.
  induction a as [|d a IH]; cbn [Str.lacks append Spec.split_at]; intros H.
  - now rewrite Ascii.eqb_refl.
  - apply andb_true_iff in H as [Hd Ha]. apply negb_true_iff in Hd.
    rewrite Ascii.eqb_sym in Hd. now rewrite Hd, (IH Ha).
Qed.

Lemma split_one (c : ascii) (x : string) :
  Str.lacks c x = true -> Spec.split c x = [x].
Proof.
  induction x as [|d x IH]; cbn [Str.lacks Spec.split]; intros H; [reflexivity|].
  apply andb_true_iff in H as [Hd Hx]. apply negb_true_iff in Hd.
  rewrite Ascii.eqb_sym in Hd. now rewrite Hd, (IH Hx).
Qed.

Lemma split_cons (c : ascii) (x rest : string) :
  Str.lacks c x = true ->
  Spec.split c (x ++ String c rest) = x :: Spec.split c rest.
Proof.
  induction x as [|d x IH]; cbn [Str.lacks append Spec.split]; intros H.
  - now rewrite Ascii.eqb_refl.
  - apply andb_true_iff in H as [Hd Hx]. apply negb_true_iff in Hd.
    rewrite Ascii.eqb_sym in Hd. now rewrite Hd, (IH Hx).
Qed.

Lemma split_join (c : ascii) (l : list string) :
  l <> [] -> Forall (fun x => Str.lacks c x = true) l ->
  Spec.split c (Str.join (String c "") l) = l.
Proof.
  induction l as [|x l IH]; [congruence|]. intros _ Hall.
  inversion Hall as [|? ? Hx Hl]; subst.
  destruct l as [|y l].
  - now apply split_one.
  - change (Str.join (String c "") (x :: y :: l))
      with (x ++ String c (Str.join (String c "") (y :: l))).
    rewrite (split_cons _ _ _ Hx), IH; [reflexivity | discriminate | assumption].
Qed.

Lemma field_lacks_amp (kv : string * pyval) : Str.lacks "&" (urllib.field py_str kv) = true.
Proof.
  unfold urllib.field. rewrite !lacks_app.
  destruct (quote_plus_lacks (fst kv)) as [-> _].
  destruct (quote_plus_lacks (urllib.to_str py_str (snd kv))) as [-> _].
  reflexivity.
Qed.

Lemma parse_field_field (kv : string * pyval) :
  Spec.parse_field (urllib.field py_str kv)
  = [(fst kv, urllib.to_str py_str (snd kv))].
Proof.
  unfold Spec.parse_field, urllib.field.
  assert (Hne : forall a b, String.eqb (a ++ "=" ++ b) "" = false)
    by (intros a b; destruct a; reflexivity).
  rewrite Hne.
  change ("=" ++ ?b) with (String "=" b).
  rewrite split_at_first by apply quote_plus_lacks.
  now rewrite !unquote_quote.
Qed.

(** Decoding what [urlencode] produced gives the dict back: the same
    keys in the same order, each with the text of its value. *)
Lemma parse_qsl_urlencode (params : Py.dict) :
  Spec.parse_qsl (urllib.urlencode py_str params)
  = map (fun kv => (fst kv, urllib.to_str py_str (snd kv))) params.
Proof.
  unfold Spec.parse_qsl, urllib.urlencode.
  destruct params as [|kv params]; [reflexivity|].
  rewrite split_join.
  - induction (kv :: params) as [|x l IH]; [reflexivity|].
    cbn [map flat_map]. now rewrite parse_field_field, IH.
  - discriminate.
  - apply Forall_forall. intros x Hin. apply in_map_iff in Hin as (y & <- & _).
    apply field_lacks_amp.
Qed.

Lemma keys_parse_qsl_urlencode (params : Py.dict) :
  map fst (Spec.parse_qsl (urllib.urlencode py_str params)) = Py.keys params.
Proof.
  rewrite parse_qsl_urlencode. unfold Py.keys. now rewrite map_map.
Qed.

End UrlFacts.

(* ================================================================== *)
(** ** Running the Data Reader *)

Section ReaderFacts.
Variable py_str : pyval -> string.

Lemma get_bear_db_path_run (w : World) :
  database.get_bear_db_path py_str w = (Ok (Spec.store_path py_str w), []).
Proof.
  unfold Spec.store_path, result, database.get_bear_db_path, bind, ask.
  destruct (Py.truthy _); reflexivity.
Qed.

(** Every reader has one shape: resolve the path, connect, run a body
    under [try ... finally: conn.close()]. *)
Lemma reader_run {A} (f : string) (body : M A) (w : World) :
  (emit (EvCall f) ;;
   db_path <- database.get_bear_db_path py_str ;;
   sqlite.connect db_path ;;
   try_finally body sqlite.close) w
  = match connect_error w (Spec.store_path py_str w) with
    | Some e => (Raise e, [EvCall f])
    | None =>
        (fst (body w),
         EvCall f :: EvConnect (Spec.store_path py_str w) :: snd (body w) ++ [EvClose])%list
    end.
Proof.
  unfold bind at 1 2. rewrite get_bear_db_path_run.
  cbv beta iota delta [emit bind sqlite.connect ask try_finally sqlite.close raise].
  destruct (connect_error w _); [reflexivity|].
  destruct (body w) as [r t]. reflexivity.
Qed.

Lemma execute_run {R} sql params (table : World -> list R) where_ (w : World) :
  sqlite.execute sql params table where_ w
  = (match execute_error w sql with
     | Some e => Raise e
     | None => Ok (filter (where_ w) (table w))
     end, [EvExecute sql params]).
Proof.
  unfold sqlite.execute, bind, emit, ask, raise, ret.
  destruct (execute_error w sql); reflexivity.
Qed.

(** A reader whose body runs one statement and maps the rows. *)
Lemma select_run {R A} f sql params (table : World -> list R) where_
      (g : list R -> A) (w : World) :
  (emit (EvCall f) ;;
   db_path <- database.get_bear_db_path py_str ;;
   sqlite.connect db_path ;;
   try_finally
     (rows <- sqlite.execute sql params table where_ ;; ret (g rows))
     sqlite.close) w
  = match connect_error w (Spec.store_path py_str w) with
    | Some e => (Raise e, [EvCall f])
    | None =>
        (match execute_error w sql with
         | Some e => Raise e
         | None => Ok (g (filter (where_ w) (table w)))
         end,
         [EvCall f; EvConnect (Spec.store_path py_str w);
          EvExecute sql params; EvClose])
    end.
Proof.
  rewrite reader_run. destruct (connect_error w _); [reflexivity|].
  unfold bind. rewrite execute_run.
  destruct (execute_error w sql); reflexivity.
Qed.

Lemma get_note_by_id_run (note_id : pyval) (w : World) :
  database.get_note_by_id py_str note_id w
  = match connect_error w (Spec.store_path py_str w) with
    | Some e => (Raise e, [EvCall "get_note_by_id"])
    | None =>
        let sql := "SELECT * FROM ZSFNOTE WHERE ZUNIQUEIDENTIFIER=?;" in
        let path := Spec.store_path py_str w in
        match sqlite.bind_param 1 note_id with
        | Raise e => (Raise e, [EvCall "get_note_by_id"; EvConnect path; EvClose])
        | Ok p =>
            (match execute_error w sql with
             | Some e => Raise e
             | None =>
                 Ok match find (fun row => sqlite.col_eq_param (sqlite_real_text w)
                                             (ZUNIQUEIDENTIFIER row) p) (ZSFNOTE w) with
                    | Some row => database.note_detail row
                    | None => PNone
                    end
             end,
             [EvCall "get_note_by_id"; EvConnect path; EvExecute sql [p]; EvClose])
        end
    end.
Proof.
  unfold database.get_note_by_id. rewrite reader_run.
  destruct (connect_error w _); [reflexivity|].
  cbv zeta. unfold bind at 1 2, lift.
  destruct (sqlite.bind_param 1 note_id) as [p|e]; [|reflexivity].
  unfold bind. rewrite execute_run.
  destruct (execute_error w _); [reflexivity|].
  set (keep := fun row => sqlite.col_eq_param _ _ _).
  assert (Hhd : forall l, hd_error (filter keep l) = find keep l).
  { induction l as [|x l IH]; [reflexivity|]. simpl. now destruct (keep x). }
  rewrite Hhd. destruct (find keep (ZSFNOTE w)); reflexivity.
Qed.

End ReaderFacts.

(* ================================================================== *)
(** ** The Data Reader: properties *)

Section ReaderProperties.
Variable py_str : pyval -> string.

(** In a world where the store opens and the statement runs,
    [get_notes_like] returns the unarchived rows whose body or title
    matches [%search_text%] under [LIKE]. *)
Lemma get_notes_like_run (x : string) (w : World) :
  connect_error w (Spec.store_path py_str w) = None ->
  execute_error w "SELECT * FROM ZSFNOTE WHERE ZARCHIVED=0 AND (ZTEXT LIKE ? OR ZTITLE LIKE ?);" = None ->
  result (database.get_notes_like py_str (PStr x)) w
  = Ok (map database.note_summary
          (filter (fun row => Spec.not_archived row
                              && (sqlite.col_like (ZTEXT row) ("%" ++ x ++ "%")
                                  || sqlite.col_like (ZTITLE row) ("%" ++ x ++ "%")))
                  (ZSFNOTE w))).
Proof.
  intros Hc He. unfold result, database.get_notes_like.
  cbv zeta. rewrite select_run, Hc, He. reflexivity.
Qed.

(** Whatever the search text, no archived note is returned. *)
Lemma get_notes_like_never_archived (x : string) (w : World) (notes : list pyval) :
  result (database.get_notes_like py_str (PStr x)) w = Ok notes ->
  exists rows,
    notes = map database.note_summary rows
    /\ Forall (fun row => In row (ZSFNOTE w) /\ ZARCHIVED row = Some 0%Z) rows.
Proof.
  unfold result, database.get_notes_like. cbv zeta. rewrite select_run.
  destruct (connect_error w _); [discriminate|].
  destruct (execute_error w _); [discriminate|].
  cbn [fst]. intros H. injection H as <-.
  eexists. split; [reflexivity|].
  apply Forall_forall. intros row Hin. apply filter_In in Hin as [Hin Hk].
  split; [assumption|]. apply andb_true_iff in Hk as [Ha _].
  unfold sqlite.col_eq_int in Ha. destruct (ZARCHIVED row) as [z|]; [|discriminate].
  apply Z.eqb_eq in Ha. now subst.
Qed.

(** With no [%], no [_] and no NUL in the search text, and no NUL in the
    titles and bodies of the store, the notes returned are exactly the
    unarchived ones whose title or body contains the text up to ASCII
    case. *)
Lemma get_notes_like_plain (x : string) (w : World) :
  Spec.plain x = true ->
  Spec.nul_free x = true ->
  Spec.texts_nul_free (ZSFNOTE w) ->
  connect_error w (Spec.store_path py_str w) = None ->
  execute_error w "SELECT * FROM ZSFNOTE WHERE ZARCHIVED=0 AND (ZTEXT LIKE ? OR ZTITLE LIKE ?);" = None ->
  result (database.get_notes_like py_str (PStr x)) w
  = Ok (map database.note_summary (Spec.notes_containing x (ZSFNOTE w))).
Proof.
  intros Hx Hn Hstore Hc He. rewrite (get_notes_like_run _ _ Hc He).
  unfold Spec.notes_containing. do 2 f_equal.
  apply filter_ext_in. intros row Hin. destruct (Hstore row Hin) as [Htext Htitle].
  rewrite !(col_like_plain _ _ Hx Hn).
  rewrite (col_reads_nul_free _ _ Htext), (col_reads_nul_free _ _ Htitle).
  now rewrite orb_comm.
Qed.

End ReaderProperties.

(** C3, at the search text ["_"]: [get_notes_like] returns a note titled
    ["a"] with an empty body, although neither contains an underscore, so
    the notes returned are not exactly those that contain the search
    text.  The [_] of the caller's text reaches [LIKE] as a wildcard. *)
Theorem get_notes_like_underscore_matches_any :
  result (database.get_notes_like Demo.no_str (PStr "_"))
         (Demo.world_of [Demo.shopping; Demo.archived_draft])
  = Ok [database.note_summary Demo.shopping]
  /\ Spec.notes_containing "_" [Demo.shopping; Demo.archived_draft] = [].
Proof. split; reflexivity. Qed.




(** A NUL byte ends the pattern: for the tag made of a NUL byte and
    ["zzz"] the pattern read is [%#], and a note whose body ends in [#] is
    returned. *)
Example get_notes_by_tag_nul_ends_pattern :
  result (database.get_notes_by_tag Demo.no_str (PStr (String "000" "zzz")))
         (Demo.world_of [Demo.note 0 "t" "x#" "n6"; Demo.note 0 "u" "#x" "n7"])
  = Ok [database.note_summary (Demo.note 0 "t" "x#" "n6")].
Proof. reflexivity. Qed.



(** C9: every Data Reader call keeps to one scoped connection.  Its trace
    holds no subprocess and no log event, touches the store only between
    one connect and one close, and ends closed.  When the store opens, the
    trace is the call, the connect to the resolved path, at most one
    statement, and the close, whether the call returns or raises; when the
    store does not open, the call raises with nothing to release. *)
Theorem data_reader_scoped_connection :
  forall (py_str : pyval -> string) (c : Spec.reader_call) (w : World),
    let t := Spec.reader_trace py_str c w in
    let path := Spec.store_path py_str w in
    Spec.scoped false t = true
    /\ match connect_error w path with
       | Some _ =>
           t = [EvCall (Spec.reader_name c)]
           /\ Spec.reader_raises py_str c w = true
       | None =>
           exists statements,
             t = (EvCall (Spec.reader_name c) :: EvConnect path
                    :: statements ++ [EvClose])%list
             /\ (length statements <= 1)%nat
             /\ forallb (fun ev => match ev with EvExecute _ _ => true | _ => false end)
                        statements = true
       end.
Proof.
  intros py_str c w t path. subst t path.
  destruct c as [|x| |i|tg|]; unfold Spec.reader_trace, Spec.reader_raises, trace, result.
  1, 2, 3, 5, 6:
    unfold database.get_notes, database.get_notes_like, database.get_tags,
           database.get_notes_by_tag, database.get_archived_notes;
    cbv zeta; rewrite select_run;
    destruct (connect_error _ _); cbn [fst snd];
    [ split; [reflexivity | split; reflexivity]
    | split; [reflexivity | eexists [_]; repeat split; auto] ].
  rewrite get_note_by_id_run.
  destruct (connect_error w _); cbn [fst snd].
  - split; [reflexivity | split; reflexivity].
  - cbv zeta. destruct (sqlite.bind_param 1 i); cbn [fst snd].
    + split; [reflexivity | eexists [_]; repeat split; auto].
    + split; [reflexivity | exists []; repeat split; auto].
Qed.

(** The path of C9 on which the query raises: the call raises and the
    connection has been closed. *)
Example reader_closes_when_query_raises :
  database.get_notes Demo.no_str (Demo.failing_queries [Demo.shopping])
  = (Raise (mkExn "OperationalError" "no such table: ZSFNOTE"),
     [EvCall "get_notes";
      EvConnect "/Users/u/Library/Group Containers/9K33E3U3T4.net.shinyfrog.bear/Application Data/database.sqlite";
      EvExecute "SELECT * FROM ZSFNOTE WHERE ZARCHIVED=0;" [];
      EvClose]).
Proof. reflexivity. Qed.

(* ================================================================== *)
(** ** The Command Builder: properties *)

Section BuilderFacts.
Variable py_str : pyval -> string.

Lemma contains_app_r (x a s : string) :
  Str.contains x s -> Str.contains x (a ++ s).
Proof.
  intros (l & r & ->). exists (a ++ l), r. now rewrite append_assoc.
Qed.

(** The launcher is called once, on the URL, whatever it answers. *)
Lemma _open_bear_url_trace (url : string) (w : World) :
  trace (bear_url._open_bear_url url) w = [EvSubprocess ["open"; url]].
Proof.
  unfold trace, bear_url._open_bear_url, try_except, bear_url.subprocess_run,
    bind, emit, ask, raise, ret.
  destruct (launcher w _) as [|str_e|e]; cbn; try reflexivity.
  destruct (String.eqb _ _); reflexivity.
Qed.

Lemma create_note_trace (title text tags pin open_note : pyval)
      (params : Py.dict) (w : World) :
  bear_url.create_note_params title text tags pin open_note = Ok params ->
  trace (bear_url.create_note py_str title text tags pin open_note) w
  = [EvCall "create_note";
     EvSubprocess ["open"; bear_url.create_note_url py_str params]].
Proof.
  intros H. unfold trace, bear_url.create_note, bind at 1 2, emit, lift.
  rewrite H.
  pose proof (_open_bear_url_trace (bear_url.create_note_url py_str params) w) as Ht.
  unfold trace in Ht.
  destruct (bear_url._open_bear_url _ w) as [r t]. cbn in *. now subst t.
Qed.

Lemma add_text_trace (note_id text mode open_note : pyval) (w : World) :
  Py.in_strs mode ["append"; "prepend"; "replace"] = true ->
  trace (bear_url.add_text py_str note_id text mode open_note) w
  = [EvCall "add_text";
     EvSubprocess ["open"; bear_url.add_text_url py_str
                             (bear_url.add_text_params note_id text mode open_note)]].
Proof.
  intros H. unfold trace, bear_url.add_text, bind, emit. rewrite H. cbn [negb].
  pose proof (_open_bear_url_trace
                (bear_url.add_text_url py_str
                   (bear_url.add_text_params note_id text mode open_note)) w) as Ht.
  unfold trace in Ht.
  destruct (bear_url._open_bear_url _ w) as [r t]. cbn in *. now subst t.
Qed.

Lemma create_note_url_query (params : Py.dict) :
  Spec.url_query (bear_url.create_note_url py_str params)
  = urllib.urlencode py_str params.
Proof. reflexivity. Qed.

Lemma add_text_url_query (params : Py.dict) :
  Spec.url_query (bear_url.add_text_url py_str params)
  = urllib.urlencode py_str params.
Proof. reflexivity. Qed.

(** Decoding the URI [add_text] builds gives back its three arguments,
    and [open_note] only when it was set. *)
Lemma add_text_round_trip (note_id text mode : string) (open_note : bool) :
  Spec.decoded_params
    (bear_url.add_text_url py_str
       (bear_url.add_text_params (PStr note_id) (PStr text) (PStr mode) (PBool open_note)))
  = ([("id", note_id); ("text", text); ("mode", mode)]
       ++ if open_note then [("open_note", "yes")] else [])%list.
Proof.
  unfold Spec.decoded_params. rewrite add_text_url_query, parse_qsl_urlencode.
  destruct open_note; reflexivity.
Qed.

End BuilderFacts.

(** C2: for every mode string other than ["append"], ["prepend"] and
    ["replace"], [add_text] returns the failure dict whose message cites
    the mode and the three allowed values, and its trace holds the call
    alone: the launcher is not invoked. *)
Theorem add_text_rejects_unknown_mode :
  forall (py_str : pyval -> string) (note_id text open_note : pyval)
         (mode : string) (w : World),
    ~ In mode ["append"; "prepend"; "replace"] ->
    let msg := "Invalid mode: " ++ mode ++ ". Use append, prepend, or replace" in
    bear_url.add_text py_str note_id text (PStr mode) open_note w
    = (Ok (PDict [("success", PBool false); ("error", PStr msg)]),
       [EvCall "add_text"])
    /\ Str.contains mode msg
    /\ Str.contains "append" msg
    /\ Str.contains "prepend" msg
    /\ Str.contains "replace" msg.
Proof.
  intros py_str note_id text open_note mode w Hmode msg. subst msg.
  assert (Hin : Py.in_strs (PStr mode) ["append"; "prepend"; "replace"] = false).
  { unfold Py.in_strs. cbn [existsb Py.eq_str].
    rewrite !orb_false_iff, !String.eqb_neq.
    repeat split; try reflexivity; intros ->; apply Hmode; simpl; auto. }
  split.
  - unfold bear_url.add_text, bind, emit, ret. rewrite Hin. reflexivity.
  - split; [exists "Invalid mode: ", ". Use append, prepend, or replace"; reflexivity|].
    repeat split; apply contains_app_r, contains_app_r, is_substr_iff; reflexivity.
Qed.

Lemma add_text_rejects_unknown_mode_witness :
  bear_url.add_text Demo.no_str (PStr "abc") (PStr "hi") (PStr "bogus") (PBool false)
                    (Demo.world_of [])
  = (Ok (PDict [("success", PBool false);
                ("error", PStr "Invalid mode: bogus. Use append, prepend, or replace")]),
     [EvCall "add_text"]).
Proof.
  refine (proj1 (add_text_rejects_unknown_mode Demo.no_str (PStr "abc") (PStr "hi")
                   (PBool false) "bogus" (Demo.world_of []) _)).
  intros [H|[H|[H|[]]]]; discriminate.
Defined.

(** C6: [add_text("abc", "hi", "append")], with [open_note] left false,
    hands the launcher one URI, and the decoded query parameters of that
    URI are exactly id = abc, text = hi, mode = append, in that order and
    with no other key. *)
Theorem add_text_uri_round_trip :
  forall (py_str : pyval -> string) (w : World),
    let url := "bear://x-callback-url/add-text?id=abc&text=hi&mode=append" in
    Spec.opened_urls
      (trace (bear_url.add_text py_str (PStr "abc") (PStr "hi") (PStr "append")
                                (PBool false)) w)
    = [url]
    /\ bear_url.add_text_url py_str
         (bear_url.add_text_params (PStr "abc") (PStr "hi") (PStr "append") (PBool false))
       = url
    /\ Spec.decoded_params url = [("id", "abc"); ("text", "hi"); ("mode", "append")].
Proof.
  intros py_str w url. subst url. split; [|split; reflexivity].
  rewrite add_text_trace by reflexivity. reflexivity.
Qed.

(** C7, as stated, fails: for tags ["a"; "b"] the query string is
    [tags=a%2Cb], which does not contain the text [tags=a,b]. *)
Lemma create_note_tags_comma_is_escaped :
  exists url,
    Spec.opened_urls
      (trace (bear_url.create_note Demo.no_str PNone PNone (PList [PStr "a"; PStr "b"])
                                   (PBool false) (PBool false)) (Demo.world_of []))
    = [url]
    /\ Spec.url_query url = "tags=a%2Cb"
    /\ ~ Str.contains "tags=a,b" (Spec.url_query url).
Proof.
  exists "bear://x-callback-url/create?tags=a%2Cb".
  split; [reflexivity | split; [reflexivity|]].
  apply is_substr_false. reflexivity.
Qed.

(** C7, amended: creating a note with tags ["a"; "b"], whatever the other
    arguments, hands the launcher one URI whose query string contains
    [tags=a%2Cb]: the tag list is one comma-joined value, its comma
    percent-encoded, under one key; decoded, the only [tags] parameter is
    ["a,b"]. *)
Theorem create_note_tags_one_joined_value :
  forall (py_str : pyval -> string) (title text pin open_note : pyval) (w : World),
    exists url,
      Spec.opened_urls
        (trace (bear_url.create_note py_str title text (PList [PStr "a"; PStr "b"])
                                     pin open_note) w)
      = [url]
      /\ Str.contains "tags=a%2Cb" (Spec.url_query url)
      /\ filter (fun kv => String.eqb (fst kv) "tags") (Spec.decoded_params url)
         = [("tags", "a,b")].
Proof.
  intros py_str title text pin open_note w.
  destruct (bear_url.create_note_params title text (PList [PStr "a"; PStr "b"])
                                        pin open_note) as [params|e] eqn:Hp.
  2: { unfold bear_url.create_note_params in Hp. cbn in Hp.
       destruct (Py.truthy title), (Py.truthy text); discriminate. }
  exists (bear_url.create_note_url py_str params).
  rewrite (create_note_trace _ _ _ _ _ _ _ _ Hp).
  split; [reflexivity|].
  unfold Spec.decoded_params. rewrite create_note_url_query, parse_qsl_urlencode.
  assert (Hin : In ("tags", PStr "a,b") params
                /\ filter (fun kv => String.eqb (fst kv) "tags")
                          (map (fun kv => (fst kv, urllib.to_str py_str (snd kv))) params)
                   = [("tags", "a,b")]).
  { unfold bear_url.create_note_params in Hp. cbn in Hp.
    destruct (Py.truthy title), (Py.truthy text), (Py.truthy pin), (Py.truthy open_note);
      cbn in Hp; injection Hp as <-; cbn; auto 10. }
  destruct Hin as [Hin Hfilter]. split; [|assumption].
  unfold urllib.urlencode. apply contains_join.
  apply in_map_iff. exists ("tags", PStr "a,b"). split; [reflexivity | assumption].
Qed.

(** C10: [create_note] leaves out of the command URI every argument that is
    false when tested: [None], an empty title or text, an empty tag list, a
    false [pin] or [open_note]; a true [pin] and a true [open_note] are the
    token ["yes"]; and the keys decoded from the URI are those of the dict,
    so with an empty title the URI has no [title] key at all. *)
Theorem create_note_omits_falsy :
  forall (py_str : pyval -> string) (title text tags pin open_note : pyval)
         (params : Py.dict),
    bear_url.create_note_params title text tags pin open_note = Ok params ->
    let url := bear_url.create_note_url py_str params in
    let url_keys := map fst (Spec.decoded_params url) in
    url_keys = Py.keys params
    /\ (Py.truthy title = false -> ~ In "title" url_keys)
    /\ (Py.truthy text = false -> ~ In "text" url_keys)
    /\ (Py.truthy tags = false -> ~ In "tags" url_keys)
    /\ (Py.truthy pin = false -> ~ In "pin" url_keys)
    /\ (Py.truthy open_note = false -> ~ In "open_note" url_keys)
    /\ (Py.truthy pin = true -> In ("pin", "yes") (Spec.decoded_params url))
    /\ (Py.truthy open_note = true -> In ("open_note", "yes") (Spec.decoded_params url))
    /\ Py.truthy (PStr "") = false /\ Py.truthy (PList []) = false
    /\ Py.truthy (PBool false) = false /\ Py.truthy PNone = false.
Proof.
  intros py_str title text tags pin open_note params Hp url url_keys.
  subst url_keys url. unfold Spec.decoded_params.
  rewrite create_note_url_query, parse_qsl_urlencode, map_map. cbn [fst].
  unfold bear_url.create_note_params in Hp.
  destruct (Py.truthy title), (Py.truthy text), (Py.truthy tags),
    (Py.str_join "," tags), (Py.truthy pin), (Py.truthy open_note);
    cbn in Hp; try discriminate; injection Hp as <-; cbn;
    repeat split; try discriminate; try reflexivity; auto 10;
    intros _; intuition discriminate.
Qed.

Lemma create_note_omits_falsy_witness :
  let url := bear_url.create_note_url Demo.no_str [("pin", PStr "yes")] in
  ~ In "title" (map fst (Spec.decoded_params url))
  /\ In ("pin", "yes") (Spec.decoded_params url).
Proof.
  intros url.
  destruct (create_note_omits_falsy Demo.no_str (PStr "") (PStr "") (PList [])
              (PBool true) (PBool false) [("pin", PStr "yes")] eq_refl)
    as (_ & Htitle & _ & _ & _ & _ & Hpin & _).
  split; [apply Htitle | apply Hpin]; reflexivity.
Defined.

(** With an empty title the URI built is the bare command. *)
Example create_note_empty_title_url :
  forall w,
    Spec.opened_urls
      (trace (bear_url.create_note Demo.no_str (PStr "") PNone PNone
                                   (PBool false) (PBool false)) w)
    = ["bear://x-callback-url/create?"].
Proof.
  intros w.
  now rewrite (create_note_trace Demo.no_str (PStr "") PNone PNone (PBool false)
                 (PBool false) [] w eq_refl).
Qed.

(* ================================================================== *)
(** ** The dispatcher: properties *)

(** C1: for every tool of the registry and every name its schema lists as
    required, [call_tool] on an argument dict without that key answers one
    text, [Error: ] followed by a message that names the key; the trace is
    the log line alone, so no executor was entered, the store was not
    touched and no subprocess was started. *)
Theorem call_tool_missing_required_argument :
  forall (py_str : pyval -> string) (tool : server.Tool) (key : string)
         (arguments : Py.dict) (w : World),
    In tool server.list_tools ->
    In key (server.required tool) ->
    Py.dict_mem key arguments = false ->
    exists msg,
      server.call_tool py_str (server.name tool) (PDict arguments) w
      = (Ok [server.mkText "text" ("Error: " ++ msg)],
         [EvLog ("Error executing tool " ++ server.name tool ++ ": " ++ msg)])
      /\ Str.contains key msg.
Proof.
  intros py_str tool key arguments w Htool Hkey Hmem.
  unfold server.list_tools in Htool. cbn [In] in Htool.
  repeat (destruct Htool as [<-|Htool]; [cbn [server.required In] in Hkey|]);
    try contradiction;
    repeat (destruct Hkey as [<-|Hkey]); try contradiction;
    unfold server.call_tool, try_except, server.missing;
    cbn [server.name String.eqb Ascii.eqb Bool.eqb Py.isinstance_dict Py.mem negb orb];
    rewrite Hmem; rewrite ?orb_true_r; cbn [negb orb];
    (eexists; split; [reflexivity | apply is_substr_iff; reflexivity]).
Qed.

Lemma call_tool_missing_required_argument_witness :
  exists msg,
    server.call_tool Demo.no_str "add_text" (PDict [("note_id", PStr "abc")])
                     (Demo.world_of [])
    = (Ok [server.mkText "text" ("Error: " ++ msg)],
       [EvLog ("Error executing tool add_text: " ++ msg)])
    /\ Str.contains "text" msg.
Proof.
  apply (call_tool_missing_required_argument Demo.no_str
           (server.mkTool "add_text" "Add text to an existing note"
              [server.note_id_property; ("text", "string"); ("mode", "string");
               ("open_note", "boolean")] ["note_id"; "text"])
           "text" [("note_id", PStr "abc")] (Demo.world_of [])).
  - simpl. auto 10.
  - simpl. auto.
  - reflexivity.
Defined.

(** C8: for every name that no tool of the registry bears, [call_tool]
    answers one text naming the unknown tool, and the trace is the log line
    alone: no executor was entered, no query ran, no subprocess started. *)
Theorem call_tool_unknown_operation :
  forall (py_str : pyval -> string) (name : string) (arguments : pyval) (w : World),
    ~ In name Spec.tool_names ->
    server.call_tool py_str name arguments w
    = (Ok [server.mkText "text" ("Error: Unknown tool: " ++ name)],
       [EvLog ("Error executing tool " ++ name ++ ": Unknown tool: " ++ name)]).
Proof.
  intros py_str name arguments w Hname.
  assert (Hne : forall t, In t Spec.tool_names -> String.eqb name t = false).
  { intros t Ht. apply String.eqb_neq. intros ->. contradiction. }
  unfold server.call_tool, try_except.
  rewrite !Hne by (cbn; auto 20).
  reflexivity.
Qed.

Lemma call_tool_unknown_operation_witness :
  server.call_tool Demo.no_str "delete_everything" (PDict []) (Demo.world_of [])
  = (Ok [server.mkText "text" "Error: Unknown tool: delete_everything"],
     [EvLog "Error executing tool delete_everything: Unknown tool: delete_everything"]).
Proof.
  apply (call_tool_unknown_operation Demo.no_str "delete_everything" (PDict [])
           (Demo.world_of [])).
  cbn. intros H. repeat (destruct H as [H|H]; [discriminate|]). exact H.
Defined.

(* ================================================================== *)
(** ** The Command Builder: every command *)

Section BuilderRuns.
Variable py_str : pyval -> string.

(** [_open_bear_url] returns a dict and calls the launcher once. *)
Lemma _open_bear_url_run (url : string) (w : World) :
  exists d, bear_url._open_bear_url url w = (Ok (PDict d), [EvSubprocess ["open"; url]]).
Proof.
  unfold bear_url._open_bear_url, try_except, bear_url.subprocess_run,
    bind, emit, ask, raise, ret.
  destruct (launcher w _) as [|str_e|e]; cbn; eauto.
  destruct (String.eqb _ _); cbn; eauto.
Qed.

Lemma command_run (f segment : string) (params : Py.dict) (w : World) :
  exists d,
    bear_url.command py_str f segment params w
    = (Ok (PDict d),
       [EvCall f;
        EvSubprocess ["open"; "bear://x-callback-url/" ++ segment ++ "?"
                                ++ urllib.urlencode py_str params]]).
Proof.
  unfold bear_url.command, bind, emit. cbv zeta.
  destruct (_open_bear_url_run
              ("bear://x-callback-url/" ++ segment ++ "?" ++ urllib.urlencode py_str params) w)
    as [d Hd].
  rewrite Hd. now exists d.
Qed.

Lemma strs_from_strings (i : nat) (tags : list string) :
  Py.strs_from i (map PStr tags) = Ok tags.
Proof.
  revert i; induction tags as [|t tags IH]; intros i; cbn; [reflexivity|].
  now rewrite IH.
Qed.

Lemma str_join_strings (sep : string) (tags : list string) :
  Py.str_join sep (PList (map PStr tags)) = Ok (Str.join sep tags).
Proof. unfold Py.str_join. now rewrite strs_from_strings. Qed.

(** A launched command URI decodes to the text of its parameters. *)
Lemma command_launches (f segment : string) (params : Py.dict) (w : World) :
  Str.lacks "?" segment = true ->
  Routing.launches (trace (bear_url.command py_str f segment params) w)
                   ("bear://x-callback-url/" ++ segment ++ "?")
                   (map (fun kv => (fst kv, urllib.to_str py_str (snd kv))) params).
Proof.
  intros Hseg. destruct (command_run f segment params w) as [d Hd].
  unfold trace. rewrite Hd. cbn [snd].
  exists ("bear://x-callback-url/" ++ segment ++ "?" ++ urllib.urlencode py_str params).
  split; [reflexivity|]. split.
  - apply starts_with_iff. exists (urllib.urlencode py_str params).
    now rewrite !append_assoc.
  - unfold Spec.decoded_params, Spec.url_query.
    change ("bear://x-callback-url/" ++ segment ++ "?" ++ urllib.urlencode py_str params)
      with ("bear://x-callback-url/" ++ (segment ++ String "?" (urllib.urlencode py_str params))).
    cbn [append Spec.split_at Ascii.eqb Bool.eqb].
    rewrite split_at_first by assumption. cbn [snd fst].
    apply parse_qsl_urlencode.
Qed.

End BuilderRuns.

(** X1: [_open_bear_url] never raises and calls the launcher exactly once, on
    ["open"] and the URL; it answers [success: True] when the launcher
    exits with status 0, and [success: False] with an error text when the
    launcher exits otherwise or could not be started. *)
Theorem open_bear_url_reports_launcher :
  forall (url : string) (w : World),
    exists d,
      bear_url._open_bear_url url w = (Ok (PDict d), [EvSubprocess ["open"; url]])
      /\ match launcher w ["open"; url] with
         | ExitedZero =>
             d = [("success", PBool true);
                  ("message", PStr "Command sent to Bear successfully")]
         | ExitedNonZero str_e =>
             d = [("success", PBool false); ("error", PStr str_e)]
         | SpawnFailed e =>
             Py.dict_lookup "success" d = Some (PBool false)
             /\ exists msg, Py.dict_lookup "error" d = Some (PStr msg)
                            /\ Str.contains (exn_str e) msg
         end.
Proof.
  intros url w.
  unfold bear_url._open_bear_url, try_except, bear_url.subprocess_run,
    bind, emit, ask, raise, ret.
  destruct (launcher w _) as [|str_e|e]; cbn.
  - eexists; split; reflexivity.
  - eexists; split; reflexivity.
  - destruct (String.eqb _ _); cbn; eexists; (split; [reflexivity|]);
      (split; [reflexivity|]); eexists; (split; [reflexivity|]).
    + exists "", "". cbn. now rewrite append_nil_r.
    + exists "Failed to open Bear URL: ", "". now rewrite append_nil_r.
Qed.

(** X2: Each of the eight one- and two-argument commands hands the launcher
    exactly one URI, under its own path, and the URI decodes to exactly
    the arguments given, whatever characters they hold. *)
Theorem commands_round_trip :
  forall (py_str : pyval -> string) (note_id term tag old_tag new_tag : string)
         (w : World),
    Routing.launches (trace (bear_url.trash_note py_str (PStr note_id)) w)
                     "bear://x-callback-url/trash?" [("id", note_id)]
    /\ Routing.launches (trace (bear_url.open_note py_str (PStr note_id)) w)
                        "bear://x-callback-url/open-note?" [("id", note_id)]
    /\ Routing.launches (trace (bear_url.search_in_bear py_str (PStr term)) w)
                        "bear://x-callback-url/search?" [("term", term)]
    /\ Routing.launches (trace (bear_url.archive_note py_str (PStr note_id)) w)
                        "bear://x-callback-url/archive?" [("id", note_id)]
    /\ Routing.launches (trace (bear_url.unarchive_note py_str (PStr note_id)) w)
                        "bear://x-callback-url/unarchive?" [("id", note_id)]
    /\ Routing.launches (trace (bear_url.open_tag py_str (PStr tag)) w)
                        "bear://x-callback-url/open-tag?" [("name", tag)]
    /\ Routing.launches (trace (bear_url.rename_tag py_str (PStr old_tag) (PStr new_tag)) w)
                        "bear://x-callback-url/rename-tag?"
                        [("name", old_tag); ("new_name", new_tag)].
Proof.
  intros py_str note_id term tag old_tag new_tag w.
  repeat split;
    match goal with
    | |- Routing.launches (trace (?c _ _) _) _ _ =>
        unfold c; apply (command_launches py_str); reflexivity
    | |- Routing.launches (trace (?c _ _ _) _) _ _ =>
        unfold c; apply (command_launches py_str); reflexivity
    end.
Qed.

(** X3: [add_tags_to_note] on a list of strings hands the launcher one
    [add-tags] URI that decodes to the note id and the tags joined by
    commas; an empty list still sends the command, with an empty [tags]
    value. *)
Theorem add_tags_to_note_round_trip :
  forall (py_str : pyval -> string) (note_id : string) (tags : list string) (w : World),
    Routing.launches
      (trace (bear_url.add_tags_to_note py_str (PStr note_id) (PList (map PStr tags))) w)
      "bear://x-callback-url/add-tags?"
      [("id", note_id); ("tags", Str.join "," tags)].
Proof.
  intros py_str note_id tags w.
  unfold trace, bear_url.add_tags_to_note, bind at 1 2, emit, lift.
  rewrite str_join_strings. cbv zeta.
  set (url := "bear://x-callback-url/add-tags?" ++ _).
  destruct (_open_bear_url_run url w) as [d Hd]. rewrite Hd. cbn [snd app].
  exists url. split; [reflexivity|]. split; [reflexivity|].
  unfold Spec.decoded_params. subst url.
  change (Spec.url_query ("bear://x-callback-url/add-tags?" ++ ?q)) with q.
  now rewrite parse_qsl_urlencode.
Qed.

(** X4: [create_note] on arguments of their declared types hands the launcher
    one [create] URI that decodes to exactly the arguments present, in the
    order title, text, tags, pin, open_note: a non-empty title, a
    non-empty text, the tags joined by commas when there is one, and
    [yes] for each flag that is set. *)
Theorem create_note_round_trip :
  forall (py_str : pyval -> string) (title text : string) (tags : list string)
         (pin open_note : bool) (w : World),
    Routing.launches
      (trace (bear_url.create_note py_str (PStr title) (PStr text)
                (PList (map PStr tags)) (PBool pin) (PBool open_note)) w)
      "bear://x-callback-url/create?"
      (Routing.create_note_expected title text tags pin open_note).
Proof.
  intros py_str title text tags pin open_note w.
  assert (Hp : exists params,
             bear_url.create_note_params (PStr title) (PStr text)
               (PList (map PStr tags)) (PBool pin) (PBool open_note) = Ok params
             /\ map (fun kv => (fst kv, urllib.to_str py_str (snd kv))) params
                = Routing.create_note_expected title text tags pin open_note).
  { unfold bear_url.create_note_params, Routing.create_note_expected.
    cbn [Py.truthy]. rewrite str_join_strings.
    destruct (String.eqb title ""), (String.eqb text ""), tags as [|t tags],
      pin, open_note; cbn [negb map]; eexists; split; reflexivity. }
  destruct Hp as (params & Hp & Hdec).
  rewrite (create_note_trace _ _ _ _ _ _ _ w Hp).
  exists (bear_url.create_note_url py_str params).
  split; [reflexivity|]. split; [reflexivity|].
  unfold Spec.decoded_params.
  now rewrite create_note_url_query, parse_qsl_urlencode.
Qed.

(** X5: [add_text] with one of the three modes hands the launcher one
    [add-text] URI that decodes to the id, the text and the mode, followed
    by [open_note=yes] exactly when the flag is set. *)
Theorem add_text_valid_mode_round_trip :
  forall (py_str : pyval -> string) (note_id text mode : string) (open_note : bool)
         (w : World),
    In mode ["append"; "prepend"; "replace"] ->
    Routing.launches
      (trace (bear_url.add_text py_str (PStr note_id) (PStr text) (PStr mode)
                (PBool open_note)) w)
      "bear://x-callback-url/add-text?"
      ([("id", note_id); ("text", text); ("mode", mode)]
         ++ if open_note then [("open_note", "yes")] else [])%list.
Proof.
  intros py_str note_id text mode open_note w Hmode.
  rewrite add_text_trace.
  - eexists. split; [reflexivity|]. split; [reflexivity|].
    apply add_text_round_trip.
  - destruct Hmode as [<-|[<-|[<-|[]]]]; reflexivity.
Qed.

Lemma add_text_valid_mode_round_trip_witness :
  Routing.launches
    (trace (bear_url.add_text Demo.no_str (PStr "n 1") (PStr "a&b=c") (PStr "prepend")
              (PBool true)) (Demo.world_of []))
    "bear://x-callback-url/add-text?"
    [("id", "n 1"); ("text", "a&b=c"); ("mode", "prepend"); ("open_note", "yes")].
Proof.
  apply (add_text_valid_mode_round_trip Demo.no_str "n 1" "a&b=c" "prepend" true
           (Demo.world_of [])).
  simpl. auto.
Defined.

(** X6: When the tags cannot be joined (the value is not iterable, or one of
    its items is not a string), [add_tags_to_note] raises the join's
    [TypeError] and the launcher is not called; so does [create_note] when
    the value is true. *)
Theorem unjoinable_tags_never_launch :
  forall (py_str : pyval -> string) (note_id title text tags pin open_note : pyval)
         (e : exn) (w : World),
    Py.str_join "," tags = Raise e ->
    Py.truthy tags = true ->
    bear_url.add_tags_to_note py_str note_id tags w
    = (Raise e, [EvCall "add_tags_to_note"])
    /\ bear_url.create_note py_str title text tags pin open_note w
       = (Raise e, [EvCall "create_note"]).
Proof.
  intros py_str note_id title text tags pin open_note e w Hjoin Htrue. split.
  - unfold bear_url.add_tags_to_note, bind, emit, lift. now rewrite Hjoin.
  - unfold bear_url.create_note, bind, emit, lift, bear_url.create_note_params.
    now rewrite Htrue, Hjoin.
Qed.

Lemma unjoinable_tags_never_launch_witness :
  bear_url.add_tags_to_note Demo.no_str (PStr "n1") (PList [PStr "a"; PInt 7])
                            (Demo.world_of [])
  = (Raise (TypeError "sequence item 1: expected str instance, int found"),
     [EvCall "add_tags_to_note"]).
Proof.
  apply (unjoinable_tags_never_launch Demo.no_str (PStr "n1") PNone PNone
           (PList [PStr "a"; PInt 7]) PNone PNone
           (TypeError "sequence item 1: expected str instance, int found")
           (Demo.world_of [])); reflexivity.
Defined.

(* ================================================================== *)
(** ** The Data Reader: every query *)

Section ReaderRuns.
Variable py_str : pyval -> string.

Lemma filter_three_way {A} (p q : A -> bool) (l : list A) :
  (forall x, p x = true -> q x = false) ->
  (length (filter p l) + length (filter q l)
   + length (filter (fun x => negb (p x) && negb (q x)) l) = length l)%nat.
Proof.
  intros Hpq. induction l as [|x l IH]; [reflexivity|]. cbn.
  destruct (p x) eqn:Hp.
  - rewrite (Hpq _ Hp). cbn. lia.
  - destruct (q x); cbn; lia.
Qed.

Lemma incl_filter_weaken {A} (p q : A -> bool) (l : list A) :
  (forall x, p x = true -> q x = true) -> incl (filter p l) (filter q l).
Proof.
  intros Hpq x Hin. apply filter_In in Hin as [Hin Hp].
  apply filter_In. auto.
Qed.

Lemma like_double_percent (s : string) : sqlite.like "%%" s = true.
Proof.
  unfold sqlite.like. change (sqlite.c_str "%%") with "%%".
  apply like_percent. exists (sqlite.c_str s), "".
  split; [now rewrite append_nil_r | reflexivity].
Qed.

Lemma default_path_fold (home : string) :
  fold_left database.path_div
    ["Library"; "Group Containers"; "9K33E3U3T4.net.shinyfrog.bear";
     "Application Data"; "database.sqlite"] home
  = Routing.default_store_path home.
Proof.
  assert (Hroot : forall a b, String.eqb (a ++ String "/" (String b "")) "/" = false
                              /\ forall r, String.eqb (a ++ String "/" (String b r)) "/" = false).
  { intros a b. split; [|intros r]; destruct a as [|c [|d a]]; cbn;
      try reflexivity; now rewrite ?andb_false_r; destruct (Ascii.eqb c "/"). }
  unfold Routing.default_store_path. cbn [fold_left].
  unfold database.path_div at 5.
  destruct (String.eqb home "/") eqn:Hh.
  - apply String.eqb_eq in Hh. subst home. reflexivity.
  - unfold database.path_div.
    repeat match goal with
           | |- context [String.eqb (?a ++ "/" ++ String ?b ?r) "/"] =>
               replace (String.eqb (a ++ "/" ++ String b r) "/") with false
                 by (symmetry; apply (proj2 (Hroot a b)))
           end.
    now rewrite !append_assoc.
Qed.

Lemma store_path_resolved (w : World) :
  Spec.store_path py_str w = Routing.resolved_path w.
Proof.
  unfold Spec.store_path, Routing.resolved_path, result, database.get_bear_db_path,
    bind, ask.
  destruct (env_DB_ROUTE w) as [route|]; cbn [Py.truthy].
  - destruct (String.eqb route ""); cbn; [apply default_path_fold | reflexivity].
  - cbn. apply default_path_fold.
Qed.

(** A reader that opened the store began with its call and the connect. *)
Lemma reader_trace_head (c : Spec.reader_call) (w : World) :
  connect_error w (Spec.store_path py_str w) = None ->
  exists rest,
    Spec.reader_trace py_str c w
    = EvCall (Spec.reader_name c) :: EvConnect (Spec.store_path py_str w) :: rest.
Proof.
  intros Hc. destruct c; unfold Spec.reader_trace, trace.
  1, 2, 3, 5, 6:
    unfold database.get_notes, database.get_notes_like, database.get_tags,
           database.get_notes_by_tag, database.get_archived_notes;
    cbv zeta; rewrite select_run, Hc; cbn [snd]; eexists; reflexivity.
  rewrite get_note_by_id_run, Hc. cbv zeta.
  destruct (sqlite.bind_param 1 note_id); cbn [snd]; eexists; reflexivity.
Qed.

Lemma get_notes_by_tag_run (t : string) (w : World) :
  database.get_notes_by_tag py_str (PStr t) w
  = match connect_error w (Spec.store_path py_str w) with
    | Some e => (Raise e, [EvCall "get_notes_by_tag"])
    | None =>
        let sql := "SELECT * FROM ZSFNOTE WHERE ZARCHIVED=0 AND ZTEXT LIKE ?;" in
        (match execute_error w sql with
         | Some e => Raise e
         | None =>
             Ok (map database.note_summary
                   (filter (fun row => Spec.not_archived row
                                       && sqlite.col_like (ZTEXT row) ("%#" ++ t ++ "%"))
                           (ZSFNOTE w)))
         end,
         [EvCall "get_notes_by_tag"; EvConnect (Spec.store_path py_str w);
          EvExecute sql [SqlText ("%#" ++ t ++ "%")]; EvClose])
    end.
Proof.
  unfold database.get_notes_by_tag. cbv zeta. rewrite select_run. reflexivity.
Qed.

Lemma get_notes_like_full_run (x : string) (w : World) :
  database.get_notes_like py_str (PStr x) w
  = match connect_error w (Spec.store_path py_str w) with
    | Some e => (Raise e, [EvCall "get_notes_like"])
    | None =>
        let sql := "SELECT * FROM ZSFNOTE WHERE ZARCHIVED=0 AND (ZTEXT LIKE ? OR ZTITLE LIKE ?);" in
        (match execute_error w sql with
         | Some e => Raise e
         | None =>
             Ok (map database.note_summary
                   (filter (fun row => Spec.not_archived row
                                       && (sqlite.col_like (ZTEXT row) ("%" ++ x ++ "%")
                                           || sqlite.col_like (ZTITLE row) ("%" ++ x ++ "%")))
                           (ZSFNOTE w)))
         end,
         [EvCall "get_notes_like"; EvConnect (Spec.store_path py_str w);
          EvExecute sql [SqlText ("%" ++ x ++ "%"); SqlText ("%" ++ x ++ "%")]; EvClose])
    end.
Proof.
  unfold database.get_notes_like. cbv zeta. rewrite select_run. reflexivity.
Qed.

Lemma get_notes_run (w : World) :
  database.get_notes py_str w
  = match connect_error w (Spec.store_path py_str w) with
    | Some e => (Raise e, [EvCall "get_notes"])
    | None =>
        (match execute_error w "SELECT * FROM ZSFNOTE WHERE ZARCHIVED=0;" with
         | Some e => Raise e
         | None => Ok (map database.note_summary (filter Spec.not_archived (ZSFNOTE w)))
         end,
         [EvCall "get_notes"; EvConnect (Spec.store_path py_str w);
          EvExecute "SELECT * FROM ZSFNOTE WHERE ZARCHIVED=0;" []; EvClose])
    end.
Proof. unfold database.get_notes. rewrite select_run. reflexivity. Qed.

Lemma get_archived_notes_run (w : World) :
  database.get_archived_notes py_str w
  = match connect_error w (Spec.store_path py_str w) with
    | Some e => (Raise e, [EvCall "get_archived_notes"])
    | None =>
        (match execute_error w "SELECT * FROM ZSFNOTE WHERE ZARCHIVED=1;" with
         | Some e => Raise e
         | None =>
             Ok (map database.note_summary
                   (filter (fun row => sqlite.col_eq_int (ZARCHIVED row) 1) (ZSFNOTE w)))
         end,
         [EvCall "get_archived_notes"; EvConnect (Spec.store_path py_str w);
          EvExecute "SELECT * FROM ZSFNOTE WHERE ZARCHIVED=1;" []; EvClose])
    end.
Proof. unfold database.get_archived_notes. rewrite select_run. reflexivity. Qed.

End ReaderRuns.

(** X7: [get_notes] lists the rows whose flag is 0 and [get_archived_notes]
    those whose flag is 1, each in row order; no row is in both lists, and
    a row whose flag is NULL or any other number is in neither, so the two
    lists and those rows together count every row once. *)
Theorem listings_partition_the_store :
  forall (py_str : pyval -> string) (w : World),
    connect_error w (Spec.store_path py_str w) = None ->
    execute_error w "SELECT * FROM ZSFNOTE WHERE ZARCHIVED=0;" = None ->
    execute_error w "SELECT * FROM ZSFNOTE WHERE ZARCHIVED=1;" = None ->
    let active := filter Spec.not_archived (ZSFNOTE w) in
    let archived := filter (fun row => sqlite.col_eq_int (ZARCHIVED row) 1) (ZSFNOTE w) in
    result (database.get_notes py_str) w = Ok (map database.note_summary active)
    /\ result (database.get_archived_notes py_str) w
       = Ok (map database.note_summary archived)
    /\ (forall row, In row active -> ~ In row archived)
    /\ (length active + length archived
        + length (filter Routing.unlisted (ZSFNOTE w)) = length (ZSFNOTE w))%nat.
Proof.
  intros py_str w Hc H0 H1 active archived. subst active archived.
  assert (Hexcl : forall row, Spec.not_archived row = true ->
                              sqlite.col_eq_int (ZARCHIVED row) 1 = false).
  { intros row. unfold Spec.not_archived, sqlite.col_eq_int.
    destruct (ZARCHIVED row) as [z|]; [|discriminate].
    intros Hz. apply Z.eqb_eq in Hz. now subst z. }
  unfold result. rewrite get_notes_run, get_archived_notes_run, Hc, H0, H1.
  repeat split.
  - intros row Ha Hb. apply filter_In in Ha as [_ Ha]. apply filter_In in Hb as [_ Hb].
    rewrite (Hexcl _ Ha) in Hb. discriminate.
  - apply filter_three_way. exact Hexcl.
Qed.

Lemma listings_partition_the_store_witness :
  let w := Demo.world_of [Demo.shopping; Demo.archived_draft;
                          mkNote None None None None (Some "lost") None (Some "n4")] in
  result (database.get_notes Demo.no_str) w = Ok [database.note_summary Demo.shopping]
  /\ result (database.get_archived_notes Demo.no_str) w
     = Ok [database.note_summary Demo.archived_draft].
Proof.
  intros w.
  destruct (listings_partition_the_store Demo.no_str w eq_refl eq_refl eq_refl)
    as (Ha & Hb & _).
  split; [exact Ha | exact Hb].
Defined.

(** X8: With the empty search text [get_notes_like] returns every unarchived
    note that has a title or a body; an unarchived note whose title and
    body are both NULL is listed by [get_notes] but not found. *)
Theorem empty_search_finds_every_texted_note :
  forall (py_str : pyval -> string) (w : World),
    connect_error w (Spec.store_path py_str w) = None ->
    execute_error w "SELECT * FROM ZSFNOTE WHERE ZARCHIVED=0 AND (ZTEXT LIKE ? OR ZTITLE LIKE ?);" = None ->
    result (database.get_notes_like py_str (PStr "")) w
    = Ok (map database.note_summary
            (filter (fun row => Spec.not_archived row && Routing.has_text row)
                    (ZSFNOTE w))).
Proof.
  intros py_str w Hc He. unfold result.
  rewrite get_notes_like_full_run, Hc. cbv zeta. rewrite He. cbn [fst].
  do 2 f_equal. apply filter_ext. intros row. f_equal.
  unfold Routing.has_text, sqlite.col_like.
  change ("%" ++ "" ++ "%") with "%%".
  destruct (ZTEXT row), (ZTITLE row); rewrite ?like_double_percent; reflexivity.
Qed.

Lemma empty_search_finds_every_texted_note_witness :
  result (database.get_notes_like Demo.no_str (PStr ""))
         (Demo.world_of [Demo.shopping; mkNote None None (Some 0%Z) None None None (Some "n5")])
  = Ok [database.note_summary Demo.shopping].
Proof.
  apply (empty_search_finds_every_texted_note Demo.no_str
           (Demo.world_of [Demo.shopping;
                           mkNote None None (Some 0%Z) None None None (Some "n5")]));
    reflexivity.
Defined.

(** X9: Whatever the search text or the tag, every note that [get_notes_like]
    or [get_notes_by_tag] returns is also in the listing of [get_notes]
    (when the listing's statement runs). *)
Theorem found_notes_are_listed :
  forall (py_str : pyval -> string) (x t : string) (w : World),
    execute_error w "SELECT * FROM ZSFNOTE WHERE ZARCHIVED=0;" = None ->
    forall found,
      result (database.get_notes_like py_str (PStr x)) w = Ok found
      \/ result (database.get_notes_by_tag py_str (PStr t)) w = Ok found ->
      exists listed,
        result (database.get_notes py_str) w = Ok listed /\ incl found listed.
Proof.
  intros py_str x t w H0 found Hfound. unfold result in *.
  rewrite get_notes_run. rewrite get_notes_like_full_run, get_notes_by_tag_run in Hfound.
  destruct (connect_error w _); [destruct Hfound; discriminate|].
  rewrite H0. cbv zeta in Hfound. cbn [fst] in *.
  eexists. split; [reflexivity|].
  clear H0.
  destruct Hfound as [Hf|Hf];
    destruct (execute_error w _); try discriminate; injection Hf as <-;
    apply incl_map, incl_filter_weaken; intros row Hk;
    now apply andb_true_iff in Hk as [Ha _].
Qed.

Lemma found_notes_are_listed_witness :
  exists listed,
    result (database.get_notes Demo.no_str)
           (Demo.world_of [Demo.shopping; Demo.shouted; Demo.archived_draft])
    = Ok listed
    /\ incl [database.note_summary Demo.shouted] listed.
Proof.
  apply (found_notes_are_listed Demo.no_str "loud" "a"
           (Demo.world_of [Demo.shopping; Demo.shouted; Demo.archived_draft]) eq_refl).
  left. reflexivity.
Defined.

(** X10: Every note [get_notes_by_tag] returns for a tag [t] is also returned
    by [get_notes_like] for the text ["#" ++ t] (when the search statement
    runs): the two build the same pattern. *)
Theorem tagged_notes_are_found_by_marker_search :
  forall (py_str : pyval -> string) (t : string) (w : World),
    execute_error w "SELECT * FROM ZSFNOTE WHERE ZARCHIVED=0 AND (ZTEXT LIKE ? OR ZTITLE LIKE ?);" = None ->
    forall tagged,
      result (database.get_notes_by_tag py_str (PStr t)) w = Ok tagged ->
      exists found,
        result (database.get_notes_like py_str (PStr ("#" ++ t))) w = Ok found
        /\ incl tagged found.
Proof.
  intros py_str t w He tagged Htag. unfold result in *.
  rewrite get_notes_like_full_run. rewrite get_notes_by_tag_run in Htag.
  destruct (connect_error w _); [discriminate|].
  cbv zeta in *. rewrite He. cbn [fst] in *.
  eexists. split; [reflexivity|]. clear He.
  destruct (execute_error w _); [discriminate|]. injection Htag as <-.
  apply incl_map, incl_filter_weaken. intros row Hk.
  apply andb_true_iff in Hk as [Ha Hl]. rewrite Ha. cbn [andb].
  apply orb_true_iff. left. exact Hl.
Qed.

Lemma tagged_notes_are_found_by_marker_search_witness :
  exists found,
    result (database.get_notes_like Demo.no_str (PStr "#a")) (Demo.world_of [Demo.shouted])
    = Ok found
    /\ incl [database.note_summary Demo.shouted] found.
Proof.
  apply (tagged_notes_are_found_by_marker_search Demo.no_str "a"
           (Demo.world_of [Demo.shouted]) eq_refl).
  reflexivity.
Defined.

(** X11: Every reader connects to the path that [get_bear_db_path] resolves:
    the value of [DB_ROUTE] when it is set and not empty, and otherwise
    [Library/Group Containers/9K33E3U3T4.net.shinyfrog.bear/Application
    Data/database.sqlite] under the home directory; an empty [DB_ROUTE]
    counts as unset. *)
Theorem readers_connect_to_resolved_path :
  forall (py_str : pyval -> string) (c : Spec.reader_call) (w : World),
    connect_error w (Routing.resolved_path w) = None ->
    exists rest,
      Spec.reader_trace py_str c w
      = EvCall (Spec.reader_name c) :: EvConnect (Routing.resolved_path w) :: rest.
Proof.
  intros py_str c w Hc. rewrite <- (store_path_resolved py_str) in *.
  now apply reader_trace_head.
Qed.

Lemma readers_connect_to_resolved_path_witness :
  (exists rest,
     Spec.reader_trace Demo.no_str Spec.GetTags (Routing.with_db_route "/tmp/bear.sqlite" [])
     = EvCall "get_tags" :: EvConnect "/tmp/bear.sqlite" :: rest)
  /\ (exists rest,
        Spec.reader_trace Demo.no_str Spec.GetTags (Routing.with_db_route "" [])
        = EvCall "get_tags"
            :: EvConnect "/Users/u/Library/Group Containers/9K33E3U3T4.net.shinyfrog.bear/Application Data/database.sqlite"
            :: rest).
Proof.
  split.
  - apply (readers_connect_to_resolved_path Demo.no_str Spec.GetTags
             (Routing.with_db_route "/tmp/bear.sqlite" [])). reflexivity.
  - apply (readers_connect_to_resolved_path Demo.no_str Spec.GetTags
             (Routing.with_db_route "" [])). reflexivity.
Defined.

(* ================================================================== *)
(** ** The dispatcher: every branch *)

Section DispatchRuns.
Variable py_str : pyval -> string.

Lemma select_exec_run {R A} f sql params (table : World -> list R) where_
      (g : list R -> A) (w : World) :
  Routing.exec_run f
    ((emit (EvCall f) ;;
      db_path <- database.get_bear_db_path py_str ;;
      sqlite.connect db_path ;;
      try_finally
        (rows <- sqlite.execute sql params table where_ ;; ret (g rows))
        sqlite.close) w).
Proof.
  rewrite select_run. destruct (connect_error w _); constructor.
Qed.

Lemma get_notes_exec (w : World) :
  Routing.exec_run "get_notes" (database.get_notes py_str w).
Proof. apply select_exec_run. Qed.

Lemma get_tags_exec (w : World) :
  Routing.exec_run "get_tags" (database.get_tags py_str w).
Proof. apply select_exec_run. Qed.

Lemma get_archived_notes_exec (w : World) :
  Routing.exec_run "get_archived_notes" (database.get_archived_notes py_str w).
Proof. apply select_exec_run. Qed.

Lemma get_notes_like_exec (x : pyval) (w : World) :
  Routing.exec_run "get_notes_like" (database.get_notes_like py_str x w).
Proof. unfold database.get_notes_like. cbv zeta. apply select_exec_run. Qed.

Lemma get_notes_by_tag_exec (t : pyval) (w : World) :
  Routing.exec_run "get_notes_by_tag" (database.get_notes_by_tag py_str t w).
Proof. unfold database.get_notes_by_tag. cbv zeta. apply select_exec_run. Qed.

Lemma get_note_by_id_exec (i : pyval) (w : World) :
  Routing.exec_run "get_note_by_id" (database.get_note_by_id py_str i w).
Proof.
  rewrite get_note_by_id_run. destruct (connect_error w _); [constructor|].
  cbv zeta. destruct (sqlite.bind_param 1 i); constructor.
Qed.

Lemma command_exec (f segment : string) (params : Py.dict) (w : World) :
  Routing.exec_run f (bear_url.command py_str f segment params w).
Proof.
  destruct (command_run py_str f segment params w) as [d ->]. constructor.
Qed.

Lemma create_note_exec (title text tags pin open_note : pyval) (w : World) :
  Routing.exec_run "create_note"
    (bear_url.create_note py_str title text tags pin open_note w).
Proof.
  unfold bear_url.create_note, bind at 1 2, emit, lift.
  destruct (bear_url.create_note_params title text tags pin open_note) as [params|e];
    [|constructor].
  destruct (_open_bear_url_run (bear_url.create_note_url py_str params) w) as [d ->].
  constructor.
Qed.

Lemma add_text_exec (note_id text mode open_note : pyval) (w : World) :
  Routing.exec_run "add_text" (bear_url.add_text py_str note_id text mode open_note w).
Proof.
  unfold bear_url.add_text, bind, emit.
  destruct (negb _); [constructor|].
  destruct (_open_bear_url_run
              (bear_url.add_text_url py_str
                 (bear_url.add_text_params note_id text mode open_note)) w) as [d ->].
  constructor.
Qed.

Lemma add_tags_to_note_exec (note_id tags : pyval) (w : World) :
  Routing.exec_run "add_tags_to_note" (bear_url.add_tags_to_note py_str note_id tags w).
Proof.
  unfold bear_url.add_tags_to_note, bind at 1 2, emit, lift.
  destruct (Py.str_join "," tags) as [joined|e]; [|constructor]. cbv zeta.
  match goal with
  | |- context [bear_url._open_bear_url ?u w] =>
      destruct (_open_bear_url_run u w) as [d ->]
  end.
  constructor.
Qed.

(** What [call_tool] makes of one executor run followed by the reply. *)
Lemma dispatch_run {A} (f name : string) (m : M A)
      (k : A -> M (list server.TextContent)) (w : World) :
  Routing.exec_run f (m w) ->
  Routing.replies k ->
  let r := try_except (a <- m ;; k a)
             (fun e =>
                emit (EvLog ("Error executing tool " ++ name ++ ": " ++ exn_str e)) ;;
                server.reply ("Error: " ++ exn_str e)) w in
  (exists s, fst r = Ok [server.mkText "text" s])
  /\ Routing.call_trace (snd r)
  /\ Routing.calls (snd r) = [f]
  /\ (forall a t, m w = (Ok a, t) -> snd r = t /\ fst r = fst (k a w))
  /\ (forall e t, m w = (Raise e, t) ->
        r = (Ok [server.mkText "text" ("Error: " ++ exn_str e)],
             (t ++ [EvLog ("Error executing tool " ++ name ++ ": " ++ exn_str e)])%list)).
Proof.
  intros Hrun Hk r. subst r. unfold try_except, bind, emit, server.reply, ret.
  cbv beta.
  inversion Hrun as [o Hm | a url Hm | o path sql params Hm | o path Hm];
    try rewrite <- Hm;
    try (destruct o as [a|e]);
    try (destruct (Hk a w) as [s Hs]; rewrite Hs);
    cbn;
    (split; [eexists; reflexivity|]);
    (split; [constructor; (now left) || (right; eexists; reflexivity) |]);
    (split; [reflexivity|]);
    (split; [intros a' t' Heq; (injection Heq as <- <- || discriminate Heq);
             rewrite ?Hs; now cbn
            | intros e' t' Heq; (injection Heq as <- <- || discriminate Heq);
              reflexivity]).
Qed.

End DispatchRuns.

Create HintDb dispatch discriminated.

#[local] Hint Resolve get_notes_exec get_tags_exec get_archived_notes_exec
  get_notes_like_exec get_notes_by_tag_exec get_note_by_id_exec
  create_note_exec add_text_exec add_tags_to_note_exec : dispatch.

#[local] Hint Extern 1 (Routing.exec_run _ (bear_url.trash_note _ _ _)) =>
  apply command_exec : dispatch.
#[local] Hint Extern 1 (Routing.exec_run _ (bear_url.open_note _ _ _)) =>
  apply command_exec : dispatch.
#[local] Hint Extern 1 (Routing.exec_run _ (bear_url.search_in_bear _ _ _)) =>
  apply command_exec : dispatch.
#[local] Hint Extern 1 (Routing.exec_run _ (bear_url.archive_note _ _ _)) =>
  apply command_exec : dispatch.
#[local] Hint Extern 1 (Routing.exec_run _ (bear_url.unarchive_note _ _ _)) =>
  apply command_exec : dispatch.
#[local] Hint Extern 1 (Routing.exec_run _ (bear_url.open_tag _ _ _)) =>
  apply command_exec : dispatch.
#[local] Hint Extern 1 (Routing.exec_run _ (bear_url.rename_tag _ _ _ _)) =>
  apply command_exec : dispatch.

Ltac split_name :=
  match goal with
  | |- context [if String.eqb ?name ?n then _ else _] =>
      destruct (String.eqb name n); lazy iota
  end.

Ltac split_guard :=
  match goal with
  | |- context [if ?g then raise _ else _] => destruct g; lazy iota
  end.

Ltac solve_replies :=
  let a := fresh "a" in
  let w' := fresh "w" in
  intros a w'; try destruct (Py.truthy a); eexists; reflexivity.

Lemma dispatch_answer {A} (f name : string) (m : M A)
      (k : A -> M (list server.TextContent)) (w : World) :
  Routing.exec_run f (m w) ->
  Routing.replies k ->
  (exists s,
     fst (try_except (bind m k)
            (fun e =>
               emit (EvLog ("Error executing tool " ++ name ++ ": " ++ exn_str e)) ;;
               server.reply ("Error: " ++ exn_str e)) w)
     = Ok [server.mkText "text" s])
  /\ Routing.call_trace
       (snd (try_except (bind m k)
               (fun e =>
                  emit (EvLog ("Error executing tool " ++ name ++ ": " ++ exn_str e)) ;;
                  server.reply ("Error: " ++ exn_str e)) w)).
Proof.
  intros Hrun Hk.
  destruct (dispatch_run f name m k w Hrun Hk) as (Ha & Ht & _).
  split; [exact Ha | exact Ht].
Qed.

(** Whatever the name and the arguments, [call_tool] answers one text and
    leaves one of the traces of [call_trace]. *)
Lemma call_tool_answer_and_trace (py_str : pyval -> string) (name : string)
      (arguments : pyval) (w : World) :
  (exists s, fst (server.call_tool py_str name arguments w) = Ok [server.mkText "text" s])
  /\ Routing.call_trace (snd (server.call_tool py_str name arguments w)).
Proof.
  unfold server.call_tool.
  repeat split_name; try split_guard;
    first
      [ eapply dispatch_answer; [eauto with dispatch | solve_replies]
      | cbn; split; [eexists; reflexivity | constructor] ].
Qed.

(** X12: [call_tool] never raises: for every tool name, every arguments value
    and every world, it returns exactly one [TextContent] of type
    ["text"]. *)
Theorem call_tool_always_answers :
  forall (py_str : pyval -> string) (name : string) (arguments : pyval) (w : World),
    exists s,
      result (server.call_tool py_str name arguments) w = Ok [server.mkText "text" s].
Proof.
  intros py_str name arguments w.
  exact (proj1 (call_tool_answer_and_trace py_str name arguments w)).
Qed.

(** X13: One call of [call_tool] enters at most one executor, starts at most
    one subprocess and logs at most one line; its store events are none,
    or one connect, at most one statement and one close, in that order; a
    call that starts a subprocess neither touches the store nor logs an
    error; and a call that enters no executor starts no subprocess and
    does not touch the store. *)
Theorem call_tool_one_executor_one_effect :
  forall (py_str : pyval -> string) (name : string) (arguments : pyval) (w : World),
    let t := trace (server.call_tool py_str name arguments) w in
    (length (Routing.calls t) <= 1)%nat
    /\ (length (Routing.spawned t) <= 1)%nat
    /\ (length (Routing.logged t) <= 1)%nat
    /\ Spec.scoped false (Routing.store_events t) = true
    /\ (Routing.store_events t = []
        \/ exists path statements,
             Routing.store_events t
             = (EvConnect path :: statements ++ [EvClose])%list
             /\ (length statements <= 1)%nat
             /\ forallb (fun ev => match ev with EvExecute _ _ => true | _ => false end)
                        statements = true)
    /\ (Routing.spawned t = []
        \/ (Routing.store_events t = [] /\ Routing.logged t = []))
    /\ (Routing.calls t <> []
        \/ (Routing.spawned t = [] /\ Routing.store_events t = [])).
Proof.
  intros py_str name arguments w t. subst t. unfold trace.
  destruct (call_tool_answer_and_trace py_str name arguments w) as [_ Ht].
  inversion Ht as [msg | f tail Htail | f url | f path sql params tail Htail
                   | f path tail Htail];
    try (destruct Htail as [->|[msg ->]]);
    cbn; repeat split; auto;
    try (left; discriminate);
    try (left; reflexivity);
    try (right; split; reflexivity);
    try (right; exists path, [EvExecute sql params]; repeat split; auto);
    try (right; exists path, []; repeat split; auto).
Qed.

Lemma dispatch_calls {A} (f name : string) (m : M A)
      (k : A -> M (list server.TextContent)) (w : World) :
  Routing.exec_run f (m w) ->
  Routing.replies k ->
  Routing.calls
    (trace (try_except (bind m k)
              (fun e =>
                 emit (EvLog ("Error executing tool " ++ name ++ ": " ++ exn_str e)) ;;
                 server.reply ("Error: " ++ exn_str e))) w)
  = [f].
Proof.
  intros Hrun Hk.
  now destruct (dispatch_run f name m k w Hrun Hk) as (_ & _ & Hc & _).
Qed.

Lemma dispatch_raised {A} (f name : string) (m : M A)
      (k : A -> M (list server.TextContent)) (w : World) (e : exn) (t : list event) :
  Routing.exec_run f (m w) ->
  Routing.replies k ->
  m w = (Raise e, t) ->
  try_except (bind m k)
    (fun e =>
       emit (EvLog ("Error executing tool " ++ name ++ ": " ++ exn_str e)) ;;
       server.reply ("Error: " ++ exn_str e)) w
  = (Ok [server.mkText "text" ("Error: " ++ exn_str e)],
     (t ++ [EvLog ("Error executing tool " ++ name ++ ": " ++ exn_str e)])%list).
Proof.
  intros Hrun Hk Hm.
  destruct (dispatch_run f name m k w Hrun Hk) as (_ & _ & _ & _ & Hr).
  now apply Hr.
Qed.

Lemma dispatch_returned {A} (f name : string) (m : M A)
      (k : A -> M (list server.TextContent)) (w : World) (a : A) (t : list event) :
  Routing.exec_run f (m w) ->
  Routing.replies k ->
  m w = (Ok a, t) ->
  try_except (bind m k)
    (fun e =>
       emit (EvLog ("Error executing tool " ++ name ++ ": " ++ exn_str e)) ;;
       server.reply ("Error: " ++ exn_str e)) w
  = (fst (k a w), t).
Proof.
  intros Hrun Hk Hm.
  destruct (dispatch_run f name m k w Hrun Hk) as (_ & _ & _ & Hr & _).
  destruct (Hr a t Hm) as [Ht Ha].
  rewrite <- Ht, <- Ha. now destruct (try_except _ _ w).
Qed.

(** X14: For every tool of the registry, when the argument dict holds every
    key the tool's schema requires, [call_tool] enters exactly one
    executor, the one the tool stands for: with C1, the keys the
    dispatcher checks are exactly the keys the schema requires. *)
Theorem call_tool_routes_to_its_executor :
  forall (py_str : pyval -> string) (tool : server.Tool) (arguments : Py.dict)
         (w : World),
    In tool server.list_tools ->
    (forall key, In key (server.required tool) -> Py.dict_mem key arguments = true) ->
    Routing.calls (trace (server.call_tool py_str (server.name tool) (PDict arguments)) w)
    = [Routing.executor_of (server.name tool)].
Proof.
  intros py_str tool arguments w Htool Hreq.
  unfold server.list_tools in Htool. cbn [In] in Htool.
  repeat (destruct Htool as [<-|Htool]; [cbn [server.required] in Hreq|]);
    try contradiction;
    unfold server.call_tool, server.missing;
    cbn [server.name String.eqb Ascii.eqb Bool.eqb Py.isinstance_dict Py.mem negb orb];
    rewrite ?Hreq by (cbn; auto);
    cbn [negb orb];
    (apply dispatch_calls; [eauto with dispatch | solve_replies]).
Qed.

Lemma call_tool_routes_to_its_executor_witness :
  Routing.calls
    (trace (server.call_tool Demo.no_str "search_bear" (PDict [("term", PStr "milk")]))
           (Demo.world_of []))
  = ["search_in_bear"].
Proof.
  apply (call_tool_routes_to_its_executor Demo.no_str
           (server.mkTool "search_bear" "Open Bear and show search results for a term"
              [("term", "string")] ["term"])
           [("term", PStr "milk")] (Demo.world_of [])).
  - simpl. auto 20.
  - intros key [<-|[]]. reflexivity.
Defined.

(** X15: When the arguments value is not a dict, every tool that declares
    properties is refused with an error text and no executor is entered;
    the three tools that declare none run as they do on an empty dict. *)
Theorem call_tool_arguments_must_be_a_dict :
  forall (py_str : pyval -> string) (tool : server.Tool) (arguments : pyval)
         (w : World),
    In tool server.list_tools ->
    Py.isinstance_dict arguments = false ->
    if Routing.takes_arguments tool then
      exists msg,
        server.call_tool py_str (server.name tool) arguments w
        = (Ok [server.mkText "text" ("Error: " ++ msg)],
           [EvLog ("Error executing tool " ++ server.name tool ++ ": " ++ msg)])
    else
      server.call_tool py_str (server.name tool) arguments w
      = server.call_tool py_str (server.name tool) (PDict []) w.
Proof.
  intros py_str tool arguments w Htool Hnd.
  unfold server.list_tools in Htool. cbn [In] in Htool.
  repeat (destruct Htool as [<-|Htool]; [cbn [Routing.takes_arguments server.properties]|]);
    try contradiction; try reflexivity;
    unfold server.call_tool, try_except, server.missing;
    cbn [server.name String.eqb Ascii.eqb Bool.eqb];
    rewrite Hnd; cbn [negb orb];
    eexists; reflexivity.
Qed.

Lemma call_tool_arguments_must_be_a_dict_witness :
  exists msg,
    server.call_tool Demo.no_str "create_note" (PList [PStr "title"]) (Demo.world_of [])
    = (Ok [server.mkText "text" ("Error: " ++ msg)],
       [EvLog ("Error executing tool create_note: " ++ msg)]).
Proof.
  apply (call_tool_arguments_must_be_a_dict Demo.no_str
           (server.mkTool "create_note" "Create a new note in Bear"
              [("title", "string"); ("text", "string"); ("tags", "array");
               ("pin", "boolean"); ("open_note", "boolean")] [])
           (PList [PStr "title"]) (Demo.world_of [])).
  - simpl. auto 20.
  - reflexivity.
Defined.

Section DispatchReaders.
Variable py_str : pyval -> string.

Lemma select_store_down {R A} f sql params (table : World -> list R) where_
      (g : list R -> A) (w : World) (e : exn) :
  connect_error w (Spec.store_path py_str w) = Some e ->
  (emit (EvCall f) ;;
   db_path <- database.get_bear_db_path py_str ;;
   sqlite.connect db_path ;;
   try_finally
     (rows <- sqlite.execute sql params table where_ ;; ret (g rows))
     sqlite.close) w
  = (Raise e, [EvCall f]).
Proof. intros Hc. now rewrite select_run, Hc. Qed.

Lemma get_note_by_id_store_down (i : pyval) (w : World) (e : exn) :
  connect_error w (Spec.store_path py_str w) = Some e ->
  database.get_note_by_id py_str i w = (Raise e, [EvCall "get_note_by_id"]).
Proof. intros Hc. now rewrite get_note_by_id_run, Hc. Qed.

Lemma add_text_run (note_id text mode open_note : pyval) (w : World) :
  Py.in_strs mode ["append"; "prepend"; "replace"] = true ->
  exists d,
    bear_url.add_text py_str note_id text mode open_note w
    = (Ok (PDict d),
       [EvCall "add_text";
        EvSubprocess ["open"; bear_url.add_text_url py_str
                                (bear_url.add_text_params note_id text mode open_note)]]).
Proof.
  intros Hmode. unfold bear_url.add_text, bind, emit. rewrite Hmode. cbn [negb].
  destruct (_open_bear_url_run
              (bear_url.add_text_url py_str
                 (bear_url.add_text_params note_id text mode open_note)) w) as [d ->].
  now exists d.
Qed.

End DispatchReaders.

(** X16: When the store cannot be opened, each of the six read tools, called
    with its required keys, answers [Error: ] followed by the text of the
    exception; the trace is the executor's entry and the log line: nothing
    was opened, nothing is retried. *)
Theorem read_tools_report_store_failure :
  forall (py_str : pyval -> string) (tool : server.Tool) (arguments : Py.dict)
         (w : World) (e : exn),
    In tool server.list_tools ->
    In (server.name tool) Routing.read_tools ->
    (forall key, In key (server.required tool) -> Py.dict_mem key arguments = true) ->
    connect_error w (Routing.resolved_path w) = Some e ->
    server.call_tool py_str (server.name tool) (PDict arguments) w
    = (Ok [server.mkText "text" ("Error: " ++ exn_str e)],
       [EvCall (server.name tool);
        EvLog ("Error executing tool " ++ server.name tool ++ ": " ++ exn_str e)]).
Proof.
  intros py_str tool arguments w e Htool Hread Hreq Hc.
  rewrite <- (store_path_resolved py_str) in Hc.
  unfold server.list_tools in Htool. cbn [In] in Htool.
  repeat (destruct Htool as [<-|Htool];
          [cbn [server.required] in Hreq; cbn [server.name] in Hread|]);
    try contradiction;
    try (exfalso; cbn in Hread;
         repeat (destruct Hread as [Hread|Hread]; [discriminate Hread|]);
         exact Hread);
    unfold server.call_tool, server.missing;
    cbn [server.name String.eqb Ascii.eqb Bool.eqb Py.isinstance_dict Py.mem negb orb];
    rewrite ?Hreq by (cbn; auto);
    cbn [negb orb];
    (etransitivity;
     [ eapply dispatch_raised;
       [ eauto with dispatch
       | solve_replies
       | first [ eapply get_note_by_id_store_down; exact Hc
               | unfold database.get_notes, database.get_notes_like, database.get_tags,
                   database.get_notes_by_tag, database.get_archived_notes;
                 cbv zeta; eapply select_store_down; exact Hc ] ]
     | reflexivity ]).
Qed.

Lemma read_tools_report_store_failure_witness :
  server.call_tool Demo.no_str "get_notes_by_tag" (PDict [("tag", PStr "work")])
                   (Routing.store_down (mkExn "OperationalError" "unable to open database file"))
  = (Ok [server.mkText "text" "Error: unable to open database file"],
     [EvCall "get_notes_by_tag";
      EvLog "Error executing tool get_notes_by_tag: unable to open database file"]).
Proof.
  apply (read_tools_report_store_failure Demo.no_str
           (server.mkTool "get_notes_by_tag" "Get all notes with a specific tag"
              [("tag", "string")] ["tag"])
           [("tag", PStr "work")]
           (Routing.store_down (mkExn "OperationalError" "unable to open database file"))
           (mkExn "OperationalError" "unable to open database file")).
  - simpl. auto 20.
  - simpl. auto 10.
  - intros key [<-|[]]. reflexivity.
  - reflexivity.
Defined.

(** X17: A call of the [add_text] tool whose dict has [note_id] and [text] but
    no [mode] appends: the launcher receives one [add-text] URI that
    decodes to the id, the text and [mode=append], followed by
    [open_note=yes] when the dict's [open_note] is true. *)
Theorem call_tool_add_text_defaults_to_append :
  forall (py_str : pyval -> string) (arguments : Py.dict) (note_id text : string)
         (w : World),
    Py.dict_lookup "note_id" arguments = Some (PStr note_id) ->
    Py.dict_lookup "text" arguments = Some (PStr text) ->
    Py.dict_lookup "mode" arguments = None ->
    Routing.launches
      (trace (server.call_tool py_str "add_text" (PDict arguments)) w)
      "bear://x-callback-url/add-text?"
      ([("id", note_id); ("text", text); ("mode", "append")]
         ++ if Py.truthy (Py.dict_get "open_note" (PBool false) arguments)
            then [("open_note", "yes")] else [])%list.
Proof.
  intros py_str arguments note_id text w Hid Htext Hmode.
  unfold trace, server.call_tool, server.missing, server.item.
  cbn [String.eqb Ascii.eqb Bool.eqb Py.isinstance_dict Py.mem Py.get negb orb].
  unfold Py.dict_mem, Py.dict_get. rewrite Hid, Htext, Hmode. cbn [negb orb].
  set (open_note := match Py.dict_lookup "open_note" arguments with
                    | Some v => v | None => PBool false end).
  destruct (add_text_run py_str (PStr note_id) (PStr text) (PStr "append") open_note w
              eq_refl) as [d Hrun].
  erewrite dispatch_returned; [|rewrite Hrun; constructor|solve_replies|exact Hrun].
  cbn [snd].
  eexists. split; [reflexivity|]. split; [reflexivity|].
  unfold Spec.decoded_params.
  rewrite add_text_url_query, parse_qsl_urlencode.
  unfold bear_url.add_text_params. destruct (Py.truthy open_note); reflexivity.
Qed.

Lemma call_tool_add_text_defaults_to_append_witness :
  Routing.launches
    (trace (server.call_tool Demo.no_str "add_text"
              (PDict [("note_id", PStr "n1"); ("text", PStr "milk & eggs")]))
           (Demo.world_of []))
    "bear://x-callback-url/add-text?"
    [("id", "n1"); ("text", "milk & eggs"); ("mode", "append")].
Proof.
  apply (call_tool_add_text_defaults_to_append Demo.no_str
           [("note_id", PStr "n1"); ("text", PStr "milk & eggs")] "n1" "milk & eggs"
           (Demo.world_of [])); reflexivity.
Defined.

(** X18: Through [call_tool], a note that is not in the store is not an error:
    when the store opens and the statement runs, [get_note_by_id] for an
    absent identifier answers the text of [{"error": "Note not found"}]
    and nothing is logged, and for a present identifier it answers the
    text of [{"note": ...}] around the note's seven-key dict. *)
Theorem call_tool_get_note_by_id_answers :
  forall (py_str : pyval -> string) (arguments : Py.dict) (id : string) (w : World),
    Py.dict_lookup "note_id" arguments = Some (PStr id) ->
    connect_error w (Routing.resolved_path w) = None ->
    execute_error w "SELECT * FROM ZSFNOTE WHERE ZUNIQUEIDENTIFIER=?;" = None ->
    server.call_tool py_str "get_note_by_id" (PDict arguments) w
    = (Ok [server.mkText "text"
             (py_str
                match find (fun row => match ZUNIQUEIDENTIFIER row with
                                       | Some s => String.eqb s id
                                       | None => false
                                       end) (ZSFNOTE w) with
                | Some row => PDict [("note", database.note_detail row)]
                | None => PDict [("error", PStr "Note not found")]
                end)],
       [EvCall "get_note_by_id"; EvConnect (Routing.resolved_path w);
        EvExecute "SELECT * FROM ZSFNOTE WHERE ZUNIQUEIDENTIFIER=?;" [SqlText id];
        EvClose]).
Proof.
  intros py_str arguments id w Hid Hc He.
  rewrite <- (store_path_resolved py_str) in *.
  unfold server.call_tool, server.missing, server.item.
  cbn [String.eqb Ascii.eqb Bool.eqb Py.isinstance_dict Py.mem Py.get negb orb].
  unfold Py.dict_mem, Py.dict_get. rewrite Hid. cbn [negb orb].
  pose proof (get_note_by_id_run py_str (PStr id) w) as Hrun.
  rewrite Hc in Hrun. cbn [sqlite.bind_param] in Hrun. cbv zeta in Hrun.
  rewrite He in Hrun.
  erewrite dispatch_returned; [|rewrite Hrun; constructor|solve_replies|exact Hrun].
  f_equal.
  assert (Hfind : forall l,
             find (fun row => sqlite.col_eq_param (sqlite_real_text w)
                                (ZUNIQUEIDENTIFIER row) (SqlText id)) l
             = find (fun row => match ZUNIQUEIDENTIFIER row with
                                | Some s => String.eqb s id
                                | None => false
                                end) l).
  { intros l. induction l as [|row l IH]; [reflexivity|]. cbn.
    rewrite IH. unfold sqlite.col_eq_param.
    destruct (ZUNIQUEIDENTIFIER row); reflexivity. }
  rewrite Hfind.
  destruct (find _ (ZSFNOTE w)); reflexivity.
Qed.

Lemma call_tool_get_note_by_id_answers_witness :
  server.call_tool Demo.no_str "get_note_by_id" (PDict [("note_id", PStr "n9")])
                   (Demo.world_of [Demo.shopping])
  = (Ok [server.mkText "text" ""],
     [EvCall "get_note_by_id";
      EvConnect "/Users/u/Library/Group Containers/9K33E3U3T4.net.shinyfrog.bear/Application Data/database.sqlite";
      EvExecute "SELECT * FROM ZSFNOTE WHERE ZUNIQUEIDENTIFIER=?;" [SqlText "n9"];
      EvClose]).
Proof.
  apply (call_tool_get_note_by_id_answers Demo.no_str [("note_id", PStr "n9")] "n9"
           (Demo.world_of [Demo.shopping])); reflexivity.
Defined.

Lemma select_query_down {R A} (py_str : pyval -> string) f sql params
      (table : World -> list R) where_ (g : list R -> A) (w : World) (e : exn) :
  connect_error w (Spec.store_path py_str w) = None ->
  execute_error w sql = Some e ->
  (emit (EvCall f) ;;
   db_path <- database.get_bear_db_path py_str ;;
   sqlite.connect db_path ;;
   try_finally
     (rows <- sqlite.execute sql params table where_ ;; ret (g rows))
     sqlite.close) w
  = (Raise e, [EvCall f; EvConnect (Spec.store_path py_str w);
               EvExecute sql params; EvClose]).
Proof. intros Hc He. now rewrite select_run, Hc, He. Qed.

(** X19: When the store opens but every statement raises, each of the six read
    tools, called with its required keys holding strings, answers
    [Error: ] followed by the text of the exception, and the connection
    is closed before the failure is logged: the trace is the executor's
    entry, the connect, the statement, the close and the log line. *)
Theorem read_tools_close_before_reporting :
  forall (py_str : pyval -> string) (tool : server.Tool) (arguments : Py.dict)
         (w : World) (e : exn),
    In tool server.list_tools ->
    In (server.name tool) Routing.read_tools ->
    (forall key, In key (server.required tool) ->
       exists s, Py.dict_lookup key arguments = Some (PStr s)) ->
    connect_error w (Routing.resolved_path w) = None ->
    (forall sql, execute_error w sql = Some e) ->
    exists sql params,
      server.call_tool py_str (server.name tool) (PDict arguments) w
      = (Ok [server.mkText "text" ("Error: " ++ exn_str e)],
         [EvCall (server.name tool); EvConnect (Routing.resolved_path w);
          EvExecute sql params; EvClose;
          EvLog ("Error executing tool " ++ server.name tool ++ ": " ++ exn_str e)]).
Proof.
  intros py_str tool arguments w e Htool Hread Hreq Hc He.
  rewrite <- (store_path_resolved py_str) in *.
  assert (Hmem : forall key, In key (server.required tool) ->
                   Py.dict_mem key arguments = true).
  { intros key Hk. destruct (Hreq key Hk) as [s Hs]. unfold Py.dict_mem. now rewrite Hs. }
  unfold server.list_tools in Htool. cbn [In] in Htool.
  repeat (destruct Htool as [<-|Htool];
          [cbn [server.required] in Hreq, Hmem; cbn [server.name] in Hread|]);
    try contradiction;
    try (exfalso; cbn in Hread;
         repeat (destruct Hread as [Hread|Hread]; [discriminate Hread|]);
         exact Hread);
    unfold server.call_tool, server.missing;
    cbn [server.name String.eqb Ascii.eqb Bool.eqb Py.isinstance_dict Py.mem negb orb];
    rewrite ?Hmem by (cbn; auto);
    cbn [negb orb];
    try (destruct (Hreq "note_id" (or_introl eq_refl)) as [s Hs];
         unfold server.item, Py.get, Py.dict_get; rewrite Hs);
    do 2 eexists;
    (etransitivity;
     [ eapply dispatch_raised;
       [ eauto with dispatch
       | solve_replies
       | first [ unfold database.get_notes, database.get_notes_like, database.get_tags,
                   database.get_notes_by_tag, database.get_archived_notes;
                 cbv zeta; eapply select_query_down; [exact Hc | apply He]
               | rewrite get_note_by_id_run, Hc; cbn [sqlite.bind_param]; cbv zeta;
                 rewrite He; reflexivity ] ]
     | reflexivity ]).
Qed.

Lemma read_tools_close_before_reporting_witness :
  exists sql params,
    server.call_tool Demo.no_str "get_notes" (PDict [])
                     (Demo.failing_queries [Demo.shopping])
    = (Ok [server.mkText "text" "Error: no such table: ZSFNOTE"],
       [EvCall "get_notes";
        EvConnect "/Users/u/Library/Group Containers/9K33E3U3T4.net.shinyfrog.bear/Application Data/database.sqlite";
        EvExecute sql params; EvClose;
        EvLog "Error executing tool get_notes: no such table: ZSFNOTE"]).
Proof.
  apply (read_tools_close_before_reporting Demo.no_str
           (server.mkTool "get_notes" "Get all notes from Bear" [] [])
           [] (Demo.failing_queries [Demo.shopping])
           (mkExn "OperationalError" "no such table: ZSFNOTE")).
  - simpl. auto.
  - simpl. auto.
  - intros key [].
  - reflexivity.
  - reflexivity.
Defined.
